(** * Smart Expense Tracker: aggregation, budgeting and forecasting engine

    A shallow embedding of [ExpenseTracker] (app.py, lines 60-181), of the
    insights of [show_ai_insights] (app.py, lines 447-518) and of the "Set
    Budget" handler (app.py, lines 410-412), with properties of them.

    Conventions of the embedding.
    - Amounts are Python floats in the source.  They are embedded by their
      values, as rationals [Q]; a comparison of floats is the comparison of
      their values.  In the tracker as embedded first, sums, means and the
      regression are exact, and what is stated of it does not turn on the
      rounding of a sum.  Where a statement is about the numbers the
      libraries compute, their computation is a parameter
      ([predict_next_month_with]).  A division whose divisor is zero yields
      numpy's [inf]/[nan], embedded by [npfloat].
    - pandas, numpy and scikit-learn are libraries, not code of the program.
      Each library call is embedded by its documented meaning: boolean-mask
      selection is [filter], [groupby(...).sum()] yields one row per distinct
      key in ascending key order, [LinearRegression] is the closed-form
      ordinary least-squares line.  [pd.to_datetime] reads a whole column in
      one call: it is a parameter of [load_data], given by
      [to_datetime_infer] as pandas 2 computes it on the two forms of date
      text the tracker writes.
    - The text cells of a record, its category and its description, are
      strings: the NaN that [read_csv] makes of an empty cell is not
      embedded.
    - The [date] column holds timestamps after [load_data] has read a data
      file (dtype datetime64) and Python objects otherwise (dtype object):
      with no data file, and after [add_expense]; the [.dt] accessor raises
      [AttributeError] on an object column.
    - The wall clock read by [datetime.now()] is an explicit argument. *)

From Stdlib Require Import ZArith QArith Qabs Lqa Lia List String Ascii.
From Stdlib Require Import Sorting.Permutation Sorting.Sorted.
From Stdlib Require Import Reals Qreals Lra.
From stdpp Require Import gmap strings.

Set Default Goal Selector "!".

(** Linear arithmetic over [Q] and over [R]. *)
Ltac qlra := Lqa.lra.
Ltac qnra := Lqa.nra.
Ltac rlra := Lra.lra.
Ltac rnra := Lra.nra.

Local Open Scope Z_scope.

(** ** Data model *)

(** A calendar date: a Python [date] or a pandas [Timestamp] reduced to its
    date part. *)
Record Date := mkDate {
  d_year : Z;
  d_month : Z;
  d_day : Z
}.

(** A cell of an object-dtype [date] column: a timestamp kept from an earlier
    load, or the string [add_expense] stored. *)
Inductive DateCell :=
| Stamp (d : Date)
| Text (s : string).

(** One row of [expenses_df].  [year] and [month] are the derived columns
    that [predict_next_month] and [show_ai_insights] write; [None] stands for
    a missing column or a NaN cell. *)
Record Row (D : Type) := mkRow {
  date : D;
  category : string;
  amount : Q;
  description : string;
  year : option Z;
  month : option Z
}.

Arguments mkRow {D} _ _ _ _ _ _.
Arguments date {D} _.
Arguments category {D} _.
Arguments amount {D} _.
Arguments description {D} _.
Arguments year {D} _.
Arguments month {D} _.

(** [expenses_df], by the dtype of its [date] column. *)
Inductive DataFrame :=
| DatetimeFrame (rows : list (Row Date))
| ObjectFrame (rows : list (Row DateCell)).

(** [len(df)] *)
Definition len (df : DataFrame) : Z :=
  match df with
  | DatetimeFrame rows => Z.of_nat (length rows)
  | ObjectFrame rows => Z.of_nat (length rows)
  end.

(** [df.empty] *)
Definition empty (df : DataFrame) : bool := len df =? 0.

(** The instance state of [ExpenseTracker]. *)
Record Tracker := mkTracker {
  expenses_df : DataFrame;
  budgets : gmap string Q
}.

(** Exceptions the modelled code can raise. *)
Inductive PyExn :=
| AttributeError.

(** Outcome of a call: a returned value or a raised exception. *)
Inductive outcome (A : Type) :=
| Returns (a : A)
| Raises (e : PyExn).

Arguments Returns {A} _.
Arguments Raises {A} _.

(** ** Exact sums and means *)

Fixpoint Qsum (l : list Q) : Q :=
  match l with
  | [] => 0%Q
  | x :: l' => (x + Qsum l')%Q
  end.

(** [Series.mean()] *)
Definition Qmean (l : list Q) : Q := (Qsum l / inject_Z (Z.of_nat (length l)))%Q.

(** ** [groupby(key)[amount].sum()]

    One row per distinct key, keys ascending, each with the sum of the amounts
    of the rows that carry the key. *)

Section GroupBy.

Context {K R : Type}.
Variable eqb : K -> K -> bool.
Variable leb : K -> K -> bool.
Variable key : R -> K.
Variable val : R -> Q.

Fixpoint sort_insert (k : K) (l : list K) : list K :=
  match l with
  | [] => [k]
  | h :: t => if leb k h then k :: h :: t else h :: sort_insert k t
  end.

Fixpoint sort_keys (l : list K) : list K :=
  match l with
  | [] => []
  | h :: t => sort_insert h (sort_keys t)
  end.

(** The distinct keys, each at its first occurrence. *)
Fixpoint unique (l : list K) : list K :=
  match l with
  | [] => []
  | h :: t => h :: List.filter (fun k => negb (eqb h k)) (unique t)
  end.

Definition group (k : K) (rows : list R) : list R :=
  List.filter (fun r => eqb (key r) k) rows.

Definition group_sum (k : K) (rows : list R) : Q :=
  Qsum (map val (group k rows)).

Definition groupby_sum (rows : list R) : list (K * Q) :=
  map (fun k => (k, group_sum k rows)) (sort_keys (unique (map key rows))).

End GroupBy.

(** Key orders: strings by code point, [(year, month)] pairs lexicographically. *)
Definition ym_eqb (a b : Z * Z) : bool := (a.1 =? b.1) && (a.2 =? b.2).
Definition ym_leb (a b : Z * Z) : bool :=
  (a.1 <? b.1) || ((a.1 =? b.1) && (a.2 <=? b.2)).

(** ** Aggregator *)

(** [get_monthly_summary]: the rows whose date has the given year and month. *)
Definition in_month (y m : Z) (r : Row Date) : bool :=
  (d_year (date r) =? y) && (d_month (date r) =? m).

Definition get_monthly_summary (t : Tracker) (y m : Z)
  : outcome (list (Row Date)) :=
  match expenses_df t with
  | DatetimeFrame rows => Returns (List.filter (in_month y m) rows)
  | ObjectFrame _ => Raises AttributeError
  end.

(** [get_category_totals]: [(category, amount)] rows; the empty frame when the
    month has no rows. *)
Definition category_totals_of (monthly_data : list (Row Date))
  : list (string * Q) :=
  groupby_sum String.eqb String.leb category amount monthly_data.

Definition get_category_totals (t : Tracker) (y m : Z)
  : outcome (list (string * Q)) :=
  match get_monthly_summary t y m with
  | Raises e => Raises e
  | Returns monthly_data =>
      if Nat.eqb (length monthly_data) 0 then Returns []
      else Returns (category_totals_of monthly_data)
  end.

(** ** Budget monitor *)

Definition Qltb (a b : Q) : bool := negb (Qle_bool b a).
Definition Qeqb (a b : Q) : bool := Qeq_bool a b.

Record BudgetAlert := mkAlert {
  alert_category : string;
  alert_budget : Q;
  alert_spent : Q;
  alert_overspend : Q
}.

(** The body of the loop over [category_totals.iterrows()]. *)
Definition alert_of (budgets : gmap string Q) (row : string * Q)
  : option BudgetAlert :=
  let category := row.1 in
  let spent := row.2 in
  let budget := default 0%Q (budgets !! category) in
  if Qltb 0 budget && Qltb budget spent then
    let overspend := (spent - budget)%Q in
    Some (mkAlert category budget spent overspend)
  else None.

Definition check_budget_alerts (t : Tracker) (y m : Z)
  : outcome (list BudgetAlert) :=
  match get_monthly_summary t y m with
  | Raises e => Raises e
  | Returns monthly_data =>
      if Nat.eqb (length monthly_data) 0 then Returns []
      else
        match get_category_totals t y m with
        | Raises e => Raises e
        | Returns category_totals =>
            Returns (omap (alert_of (budgets t)) category_totals)
        end
  end.

(** ** Forecaster *)

(** [df['year'] = df['date'].dt.year; df['month'] = df['date'].dt.month] *)
Definition set_year_month (r : Row Date) : Row Date :=
  mkRow (date r) (category r) (amount r) (description r)
        (Some (d_year (date r))) (Some (d_month (date r))).

(** The [(year, month)] key of a row, read from the derived columns; a row
    with a NaN key belongs to no group. *)
Definition ym_entry (r : Row Date) : option ((Z * Z) * Q) :=
  match year r, month r with
  | Some y, Some m => Some ((y, m), amount r)
  | _, _ => None
  end.

(** [df.groupby(['year', 'month'])['amount'].sum()] *)
Definition monthly_totals_of (rows : list (Row Date)) : list ((Z * Z) * Q) :=
  groupby_sum ym_eqb ym_leb fst snd (omap ym_entry rows).

(** [monthly_totals['year'] * 12 + monthly_totals['month']] *)
Definition month_num (k : Z * Z) : Z := k.1 * 12 + k.2.

(** [LinearRegression().fit(X, y)] with one feature: the least-squares line
    through the points, by the closed form on centred data.  When every x is
    the same the slope is 0 (the minimum-norm solution), which is what
    [Qdiv] by 0 gives. *)
Record LinearModel := mkModel {
  coef_ : Q;
  intercept_ : Q
}.

Definition Sxx (pts : list (Q * Q)) : Q :=
  let xbar := Qmean (map fst pts) in
  Qsum (map (fun p => (p.1 - xbar) * (p.1 - xbar))%Q pts).

Definition Sxy (pts : list (Q * Q)) : Q :=
  let xbar := Qmean (map fst pts) in
  let ybar := Qmean (map snd pts) in
  Qsum (map (fun p => (p.1 - xbar) * (p.2 - ybar))%Q pts).

Definition fit (pts : list (Q * Q)) : LinearModel :=
  let xbar := Qmean (map fst pts) in
  let ybar := Qmean (map snd pts) in
  let coef := (Sxy pts / Sxx pts)%Q in
  mkModel coef (ybar - coef * xbar)%Q.

(** [model.predict([[x]])[0]] *)
Definition predict (model : LinearModel) (x : Q) : Q :=
  (coef_ model * x + intercept_ model)%Q.

(** [max(0, prediction)] *)
Definition max0 (prediction : Q) : Q :=
  if Qltb 0 prediction then prediction else 0%Q.

(** The training set [(X, y)] of [predict_next_month]. *)
Definition training_points (monthly_totals : list ((Z * Z) * Q)) : list (Q * Q) :=
  map (fun r => (inject_Z (month_num r.1), r.2)) monthly_totals.

Definition with_frame (t : Tracker) (df : DataFrame) : Tracker :=
  mkTracker df (budgets t).

Definition predict_next_month (t : Tracker) (now : Date)
  : Tracker * outcome (option Q * string) :=
  if len (expenses_df t) <? 3 then
    (t, Returns (None, "Not enough data for prediction"%string))
  else
    match expenses_df t with
    | ObjectFrame _ => (t, Raises AttributeError)
    | DatetimeFrame rows =>
        let rows' := map set_year_month rows in
        let t' := with_frame t (DatetimeFrame rows') in
        let monthly_totals := monthly_totals_of rows' in
        if Z.of_nat (length monthly_totals) <? 3 then
          (t', Returns (None, "Not enough monthly data for prediction"%string))
        else
          let model := fit (training_points monthly_totals) in
          let current_year := d_year now in
          let current_month := d_month now in
          let next_month_num := current_year * 12 + current_month + 1 in
          let prediction := predict model (inject_Z next_month_num) in
          (t', Returns (Some (max0 prediction),
                        "Prediction based on historical data"%string))
    end.

(** *** The forecaster over the arithmetic of the libraries

    pandas computes the sums of [groupby(...).sum()] and scikit-learn the fit
    and the prediction of [LinearRegression] in binary64.
    [predict_next_month_with] is [predict_next_month] with these two
    computations as parameters, taken on the values of the floats;
    [predict_next_month] is its instance at the exact sum and the exact
    least-squares line. *)
Section LibraryArithmetic.

(** The sum pandas computes for the amounts of one group. *)
Variable series_sum : list Q -> Q.
(** [LinearRegression().fit(X, y).predict([[x]])[0]], the training set
    [(X, y)] given as points. *)
Variable regression : list (Q * Q) -> Q -> Q.

Definition monthly_totals_with (rows : list (Row Date)) : list ((Z * Z) * Q) :=
  let entries := omap ym_entry rows in
  map (fun k => (k, series_sum (map snd (group ym_eqb fst k entries))))
      (sort_keys ym_leb (unique ym_eqb (map fst entries))).

Definition predict_next_month_with (t : Tracker) (now : Date)
  : Tracker * outcome (option Q * string) :=
  if len (expenses_df t) <? 3 then
    (t, Returns (None, "Not enough data for prediction"%string))
  else
    match expenses_df t with
    | ObjectFrame _ => (t, Raises AttributeError)
    | DatetimeFrame rows =>
        let rows' := map set_year_month rows in
        let t' := with_frame t (DatetimeFrame rows') in
        let monthly_totals := monthly_totals_with rows' in
        if Z.of_nat (length monthly_totals) <? 3 then
          (t', Returns (None, "Not enough monthly data for prediction"%string))
        else
          let current_year := d_year now in
          let current_month := d_month now in
          let next_month_num := current_year * 12 + current_month + 1 in
          let prediction :=
            regression (training_points monthly_totals) (inject_Z next_month_num) in
          (t', Returns (Some (max0 prediction),
                        "Prediction based on historical data"%string))
    end.

End LibraryArithmetic.

(** ** Insight engine: trend and consistency *)

(** A numpy float result: a finite value, or what a zero divisor yields. *)
Inductive npfloat :=
| Finite (q : Q)
| PosInf
| NegInf
| NaN.

(** [a / b] on numpy floats: no exception on a zero divisor. *)
Definition npdiv (a b : Q) : npfloat :=
  if Qeqb b 0 then
    if Qltb 0 a then PosInf else if Qltb a 0 then NegInf else NaN
  else Finite (a / b)%Q.

(** [x * c] for a positive constant [c]. *)
Definition npscale (x : npfloat) (c : Q) : npfloat :=
  match x with
  | Finite q => Finite (q * c)%Q
  | other => other
  end.

(** [x > c] and [x < c]; every comparison with [nan] is false. *)
Definition np_gt (x : npfloat) (c : Q) : bool :=
  match x with
  | Finite q => Qltb c q
  | PosInf => true
  | NegInf | NaN => false
  end.

Definition np_lt (x : npfloat) (c : Q) : bool :=
  match x with
  | Finite q => Qltb q c
  | NegInf => true
  | PosInf | NaN => false
  end.

(** [Series.tail(n)], [Series.head(-n)] and [Series.iloc[0]] *)
Definition tail {A} (n : nat) (l : list A) : list A := skipn (length l - n) l.
Definition head_neg {A} (n : nat) (l : list A) : list A := firstn (length l - n) l.
Definition iloc0 (l : list Q) : Q := hd 0%Q l.

Inductive Trend :=
| Increasing
| Decreasing
| Stable.

(** app.py, lines 463-474: the message chosen and the percentage shown. *)
Definition trend_insight (monthly_totals : list Q) : option (Trend * npfloat) :=
  if (2 <=? length monthly_totals)%nat then
    let recent_avg := Qmean (tail 3 monthly_totals) in
    let previous_avg :=
      if (3 <? length monthly_totals)%nat then Qmean (head_neg 3 monthly_totals)
      else iloc0 monthly_totals in
    let change_percent :=
      npscale (npdiv (recent_avg - previous_avg) previous_avg) 100 in
    if np_gt change_percent 10 then Some (Increasing, change_percent)
    else if np_lt change_percent (-10) then Some (Decreasing, change_percent)
    else Some (Stable, change_percent)
  else None.

(** The square of [Series.std()]: the sample variance (ddof = 1). *)
Definition sample_var (l : list Q) : Q :=
  let m := Qmean l in
  (Qsum (map (fun x => (x - m) * (x - m)) l)
   / inject_Z (Z.of_nat (length l) - 1))%Q.

(** [monthly_std / monthly_mean > threshold], decided on the variance, the
    standard deviation being its non-negative square root: with a positive
    mean the test is [var > (threshold * mean)^2]; a zero mean gives [inf]
    (or [nan] when the deviation is zero too); with a negative mean the
    quotient is not positive. *)
Definition cv_exceeds (monthly_var monthly_mean threshold : Q) : bool :=
  if Qeqb monthly_mean 0 then Qltb 0 monthly_var
  else if Qltb 0 monthly_mean then
    Qltb ((threshold * monthly_mean) * (threshold * monthly_mean)) monthly_var
  else false.

Inductive Consistency :=
| Inconsistent
| Consistent.

(** app.py, lines 510-518. *)
Definition consistency_insight (monthly_totals : list Q) : option Consistency :=
  if (3 <=? length monthly_totals)%nat then
    let monthly_var := sample_var monthly_totals in
    let monthly_mean := Qmean monthly_totals in
    if cv_exceeds monthly_var monthly_mean (3 # 10) then Some Inconsistent
    else Some Consistent
  else None.

Record Insights := mkInsights {
  trend : option (Trend * npfloat);
  consistency : option Consistency
}.

(** [show_ai_insights], reduced to the trend and consistency signals it
    displays; [None] is the early return on an empty frame. *)
Definition show_ai_insights (t : Tracker) : Tracker * outcome (option Insights) :=
  if empty (expenses_df t) then (t, Returns None)
  else
    match expenses_df t with
    | ObjectFrame _ => (t, Raises AttributeError)
    | DatetimeFrame rows =>
        let rows' := map set_year_month rows in
        let monthly_totals := map snd (monthly_totals_of rows') in
        (with_frame t (DatetimeFrame rows'),
         Returns (Some (mkInsights (trend_insight monthly_totals)
                                   (consistency_insight monthly_totals))))
    end.

(** ** Record store *)

(** The two files of the tracker; [None] is an absent file.  A CSV row keeps
    its date as text. *)
Record Disk := mkDisk {
  data_file : option (list (Row string));
  budget_file : option (gmap string Q)
}.

(** Decimal digits. *)
Definition digit (n : Z) : ascii := ascii_of_nat (48 + Z.to_nat (n mod 10)).

Definition digits2 (n : Z) : string :=
  String (digit (n / 10)) (String (digit n) EmptyString).

Definition digits4 (n : Z) : string :=
  String (digit (n / 1000)) (String (digit (n / 100)) (digits2 n)).

(** The [YYYY-MM-DD] text of the date of a timestamp; the year of a pandas
    timestamp has four digits. *)
Definition iso_text (d : Date) : string :=
  (digits4 (d_year d) ++ "-" ++ digits2 (d_month d) ++ "-" ++ digits2 (d_day d))%string.

(** [date.strftime('%Y-%m-%d')]: the month and the day are padded with a
    zero, the year is written with as many digits as it has. *)
Definition year_text (y : Z) : string :=
  if y <? 10 then String (digit y) EmptyString
  else if y <? 100 then digits2 y
  else if y <? 1000 then String (digit (y / 100)) (digits2 y)
  else digits4 y.

Definition strftime (d : Date) : string :=
  (year_text (d_year d) ++ "-" ++ digits2 (d_month d) ++ "-" ++ digits2 (d_day d))%string.

(** What [to_csv] writes for a date: in a datetime64 column whose times are
    all midnight the date alone, for a [Timestamp] object inside an object
    column its [str()], which carries the time. *)
Definition datetime_text (d : Date) : string := iso_text d.

Definition stamp_text (d : Date) : string := (iso_text d ++ " 00:00:00")%string.

(** The [date] argument of [add_expense]: an object with [strftime], or
    anything else, given by its [str()]. *)
Inductive DateArg :=
| DateObj (d : Date)
| OtherArg (s : string).

Definition retag {A B} (f : A -> B) (r : Row A) : Row B :=
  mkRow (f (date r)) (category r) (amount r) (description r) (year r) (month r).

Section Store.

(** [pd.to_datetime(df['date'], errors='coerce')]: one call on the whole
    column of the file, with one result per cell; [None] is NaT. *)
Variable to_datetime : list string -> list (option Date).
(** The text [to_csv] writes for a cell of a datetime64 column, and for a
    [Timestamp] object inside an object column. *)
Variable csv_of_datetime : Date -> string.
Variable str_of_stamp : Date -> string.

(** [df.dropna(subset=['date'])] on the frame whose [date] column has been
    replaced by the parsed one. *)
Fixpoint dropna_date (file_rows : list (Row string)) (dates : list (option Date))
  : list (Row Date) :=
  match file_rows, dates with
  | r :: file_rows', Some d :: dates' =>
      retag (fun _ => d) r :: dropna_date file_rows' dates'
  | _ :: file_rows', None :: dates' => dropna_date file_rows' dates'
  | _, _ => []
  end.

(** [load_data]: an existing data file is read, its date column parsed and
    the rows whose date is NaT dropped, which leaves a datetime64 column; with
    no data file the frame is [pd.DataFrame(columns=[...])], empty with object
    columns.  The budget file is read likewise, [{}] when absent. *)
Definition load_data (disk : Disk) : Tracker :=
  mkTracker
    match data_file disk with
    | Some file_rows =>
        DatetimeFrame (dropna_date file_rows (to_datetime (map date file_rows)))
    | None => ObjectFrame []
    end
    match budget_file disk with
    | Some b => b
    | None => ∅
    end.

Definition cell_text (c : DateCell) : string :=
  match c with
  | Stamp d => str_of_stamp d
  | Text s => s
  end.

Definition to_csv (df : DataFrame) : list (Row string) :=
  match df with
  | DatetimeFrame rows => map (retag csv_of_datetime) rows
  | ObjectFrame rows => map (retag cell_text) rows
  end.

(** [save_data] rewrites both files from the tracker. *)
Definition save_data (t : Tracker) : Disk :=
  mkDisk (Some (to_csv (expenses_df t))) (Some (budgets t)).

(** The rows of a frame as object cells, as [pd.concat] with a frame whose
    date is a string leaves them. *)
Definition as_objects (df : DataFrame) : list (Row DateCell) :=
  match df with
  | DatetimeFrame rows => map (retag Stamp) rows
  | ObjectFrame rows => rows
  end.

(** [add_expense]: the date is stored as a string, the new row is
    concatenated after the existing ones, and both files are saved. *)
Definition add_expense (t : Tracker) (date : DateArg) (category : string)
    (amount : Q) (description : string) : Tracker * Disk :=
  let date_str :=
    match date with
    | DateObj d => strftime d
    | OtherArg s => s
    end in
  let new_expense := mkRow (Text date_str) category amount description None None in
  let t' := with_frame t (ObjectFrame (as_objects (expenses_df t) ++ [new_expense])) in
  (t', save_data t').

End Store.

(** ** Vocabulary of the specification *)

(** [budgets.get(category, 0)] *)
Definition budget_of (budgets : gmap string Q) (c : string) : Q :=
  default 0%Q (budgets !! c).

(** What category [c] spent in month [(y, m)]: the sum of the amounts of the
    records of that month and category. *)
Definition spent (rows : list (Row Date)) (y m : Z) (c : string) : Q :=
  Qsum (map amount
          (List.filter (fun r => String.eqb (category r) c)
                       (List.filter (in_month y m) rows))).

(** The records of category [c] in month [(y, m)]. *)
Definition has_record (rows : list (Row Date)) (y m : Z) (c : string) : Prop :=
  exists r, In r rows /\ in_month y m r = true /\ category r = c.

(** A frame whose dates are timestamps, with a budget map. *)
Definition loaded (rows : list (Row Date)) (budgets : gmap string Q) : Tracker :=
  mkTracker (DatetimeFrame rows) budgets.

(** The [(year, month)] bucket of a record, the distinct buckets of a
    collection, and the total of one bucket. *)
Definition ym_of (r : Row Date) : Z * Z := (d_year (date r), d_month (date r)).

Definition month_buckets (rows : list (Row Date)) : list (Z * Z) :=
  unique ym_eqb (map ym_of rows).

Definition month_total (rows : list (Row Date)) (k : Z * Z) : Q :=
  Qsum (map amount (List.filter (fun r => ym_eqb (ym_of r) k) rows)).

(** Sum of squared residuals of a line on a training set; a least-squares
    line has the smallest one among all lines. *)
Definition sse (pts : list (Q * Q)) (model : LinearModel) : Q :=
  Qsum (map (fun p => (p.2 - (coef_ model * p.1 + intercept_ model))
                      * (p.2 - (coef_ model * p.1 + intercept_ model)))%Q pts).

Definition is_least_squares (pts : list (Q * Q)) (model : LinearModel) : Prop :=
  forall a b, (sse pts model <= sse pts (mkModel a b))%Q.

(** The monthly totals in ascending [(year, month)] order: the series the
    insights read. *)
Definition monthly_series (rows : list (Row Date)) : list Q :=
  map (month_total rows) (sort_keys ym_leb (month_buckets rows)).

(** The total of one bucket as the library sums it, and the training set
    made of these totals: one point per bucket, the month index against the
    total, in ascending order of the buckets. *)
Definition month_total_with (series_sum : list Q -> Q) (rows : list (Row Date))
    (k : Z * Z) : Q :=
  series_sum (map amount (List.filter (fun r => ym_eqb (ym_of r) k) rows)).

Definition training_set_with (series_sum : list Q -> Q) (rows : list (Row Date))
  : list (Q * Q) :=
  map (fun k => (inject_Z (k.1 * 12 + k.2), month_total_with series_sum rows k))
      (sort_keys ym_leb (month_buckets rows)).


Definition consistency_signal (o : outcome (option Insights)) : option Consistency :=
  match o with
  | Returns (Some ins) => consistency ins
  | _ => None
  end.

(** The state a derived query leaves behind. *)
Inductive Query :=
| MonthlySummary (y m : Z)
| CategoryTotals (y m : Z)
| CheckAlerts (y m : Z)
| PredictNextPeriod (now : Date)
| AiInsights.

Definition state_after (q : Query) (t : Tracker) : Tracker :=
  match q with
  | MonthlySummary _ _ | CategoryTotals _ _ | CheckAlerts _ _ => t
  | PredictNextPeriod now => (predict_next_month t now).1
  | AiInsights => (show_ai_insights t).1
  end.



(** ** Dates as text, and the reading of a date column *)

(** Calendar dates a Python [date] can hold. *)
Definition is_leap (y : Z) : bool :=
  ((y mod 4 =? 0) && negb (y mod 100 =? 0)) || (y mod 400 =? 0).

Definition days_in_month (y m : Z) : Z :=
  if m =? 2 then (if is_leap y then 29 else 28)
  else if (m =? 4) || (m =? 6) || (m =? 9) || (m =? 11) then 30
  else 31.

Definition valid_date (d : Date) : bool :=
  (1 <=? d_year d) && (d_year d <=? 9999)
  && (1 <=? d_month d) && (d_month d <=? 12)
  && (1 <=? d_day d) && (d_day d <=? days_in_month (d_year d) (d_month d)).

(** Readers of the two forms of date text the tracker itself writes:
    [YYYY-MM-DD], and [YYYY-MM-DD HH:MM:SS]. *)
Definition digit_val (c : ascii) : option Z :=
  let n := Z.of_nat (nat_of_ascii c) in
  if (48 <=? n) && (n <=? 57) then Some (n - 48) else None.

Definition num2 (c1 c2 : ascii) : option Z :=
  match digit_val c1, digit_val c2 with
  | Some a, Some b => Some (10 * a + b)
  | _, _ => None
  end.

Definition parse_iso (s : string) : option Date :=
  match s with
  | String y1 (String y2 (String y3 (String y4 (String s1 (String m1
      (String m2 (String s2 (String d1 (String d2 EmptyString))))))))) =>
      if Ascii.eqb s1 "-" && Ascii.eqb s2 "-" then
        match num2 y1 y2, num2 y3 y4, num2 m1 m2, num2 d1 d2 with
        | Some yh, Some yl, Some m, Some d =>
            let date := mkDate (100 * yh + yl) m d in
            if valid_date date then Some date else None
        | _, _, _, _ => None
        end
      else None
  | _ => None
  end.

Definition parse_time (s : string) : bool :=
  match s with
  | String sp (String h1 (String h2 (String c1 (String m1 (String m2
      (String c2 (String s1 (String s2 EmptyString)))))))) =>
      Ascii.eqb sp " " && Ascii.eqb c1 ":" && Ascii.eqb c2 ":"
      && match num2 h1 h2, num2 m1 m2, num2 s1 s2 with
         | Some h, Some m, Some sec => (h <? 24) && (m <? 60) && (sec <? 60)
         | _, _, _ => false
         end
  | _ => false
  end.

Definition parse_iso_datetime (s : string) : option Date :=
  if (String.length s =? 19)%nat && parse_time (substring 10 9 s)
  then parse_iso (substring 0 10 s)
  else None.

Inductive DateFormat :=
| DateOnly
| DateTime.

Definition strptime (format : DateFormat) (s : string) : option Date :=
  match format with
  | DateOnly => parse_iso s
  | DateTime => parse_iso_datetime s
  end.

(** A text read on its own, in whichever form it has. *)
Definition parse_date (s : string) : option Date :=
  match parse_iso s with
  | Some d => Some d
  | None => parse_iso_datetime s
  end.

(** [pd.to_datetime(column, errors='coerce')] as pandas 2 computes it on a
    column of texts: the format is guessed from the first cell that is not
    empty and every cell is read in that format, so that a cell in another
    form becomes NaT; when no format can be guessed from that cell, each cell
    is read on its own.  Of the forms pandas knows the two above are
    modelled; any other text counts as unreadable. *)
Definition guess_datetime_format (s : string) : option DateFormat :=
  match parse_iso s, parse_iso_datetime s with
  | Some _, _ => Some DateOnly
  | None, Some _ => Some DateTime
  | None, None => None
  end.

Definition to_datetime_infer (column : list string) : list (option Date) :=
  match List.find (fun s => negb (String.eqb s "")) column with
  | None => map (fun _ => None) column
  | Some first =>
      match guess_datetime_format first with
      | Some format => map (strptime format) column
      | None => map parse_date column
      end
  end.

(** ** Runs of the store *)

(** Store operations, and the states reached from the empty store. *)
Record Expense := mkExpense {
  e_date : DateArg;
  e_category : string;
  e_amount : Q;
  e_description : string
}.

Inductive Op :=
| OpLoad
| OpAppend (e : Expense).

Definition empty_disk : Disk := mkDisk None None.

Section StoreRuns.

Variable to_datetime : list string -> list (option Date).
Variable csv_of_datetime : Date -> string.
Variable str_of_stamp : Date -> string.

Definition step (s : Tracker * Disk) (op : Op) : Tracker * Disk :=
  match op with
  | OpLoad => (load_data to_datetime s.2, s.2)
  | OpAppend e =>
      add_expense csv_of_datetime str_of_stamp s.1
                  (e_date e) (e_category e) (e_amount e) (e_description e)
  end.

Definition initial : Tracker * Disk := (load_data to_datetime empty_disk, empty_disk).

Definition run (s : Tracker * Disk) (ops : list Op) : Tracker * Disk :=
  fold_left step ops s.

End StoreRuns.

(** The dates a parse of a column resolved, in the order of the column; NaT
    gives none. *)
Definition resolved_dates (dates : list (option Date)) : list Date :=
  omap (fun cell => cell) dates.

(** A stored date resolves when it is a timestamp, or a text that reads as a
    calendar date; a stored record is sound when its amount is positive and
    its date resolves. *)
Definition resolvable (c : DateCell) : Prop :=
  match c with
  | Stamp _ => True
  | Text s => parse_date s <> None
  end.

Definition sound_row (r : Row DateCell) : Prop :=
  (0 < amount r)%Q /\ resolvable (date r).

(** The records in memory. *)
Definition stored (s : Tracker * Disk) : list (Row DateCell) :=
  as_objects (expenses_df s.1).

(** The invariant carried along a run: the records in memory are sound and
    the amounts in the data file are positive. *)
Definition store_inv (s : Tracker * Disk) : Prop :=
  (forall r, In r (stored s) -> sound_row r)
  /\ (forall file_rows fr,
        data_file s.2 = Some file_rows -> In fr file_rows -> (0 < amount fr)%Q).

(** An append as the add-expense form makes it (app.py, lines 295-310): the
    date of the date input, whose years have four digits, and an amount
    above 0. *)
Definition from_form (op : Op) : Prop :=
  match op with
  | OpLoad => True
  | OpAppend e =>
      match e_date e with
      | DateObj d => valid_date d = true /\ 1000 <= d_year d /\ (0 < e_amount e)%Q
      | OtherArg _ => False
      end
  end.

(** The text [add_expense] stores for its date argument, and the row it
    appends. *)
Definition date_text (date : DateArg) : string :=
  match date with
  | DateObj d => strftime d
  | OtherArg s => s
  end.

Definition new_row (e : Expense) : Row DateCell :=
  mkRow (Text (date_text (e_date e))) (e_category e) (e_amount e)
        (e_description e) None None.

(** ** Sample data *)

(** Sample data of the forecast: three consecutive months whose totals
    300, 160, 20 lie on a falling line. *)
Definition falling_rows : list (Row Date) :=
  [ mkRow (mkDate 2024 1 5) "Food" 300%Q "rent share" None None;
    mkRow (mkDate 2024 2 20) "Food" 160%Q "groceries" None None;
    mkRow (mkDate 2024 3 10) "Food" 20%Q "snack" None None ].

(** The example of the specification: two January records and one February
    record of category Food, with a Food budget of 700. *)
Definition example_rows : list (Row Date) :=
  [ mkRow (mkDate 2024 1 5) "Food" 500%Q "lunch" None None;
    mkRow (mkDate 2024 1 20) "Food" 300%Q "dinner" None None;
    mkRow (mkDate 2024 2 10) "Food" 200%Q "snack" None None ].

Definition example_budgets : gmap string Q := {[ "Food"%string := 700%Q ]}.

(** The example of the forecast: totals 1000, 1100, 1200 for three
    consecutive months. *)
Definition rising_rows : list (Row Date) :=
  [ mkRow (mkDate 2024 1 5) "Rent" 1000%Q "january" None None;
    mkRow (mkDate 2024 2 5) "Rent" 1100%Q "february" None None;
    mkRow (mkDate 2024 3 5) "Rent" 1200%Q "march" None None ].

(** A data file with one record, as the tracker writes it after the first
    expense is added to an empty store. *)
Definition one_record_disk : Disk :=
  mkDisk (Some [mkRow "2024-01-05"%string "Food"%string 500%Q "lunch"%string None None])
         (Some example_budgets).

(** A tracker right after one append to the empty store: its date column
    holds a string. *)
Definition appended_once : Tracker :=
  mkTracker (ObjectFrame [mkRow (Text "2024-01-05") "Food" 500%Q "lunch" None None]) ∅.

(** ** The rest of the tracker and the pages that call it *)

(** The [category] column of a frame, whatever the dtype of its dates. *)
Definition categories_of (df : DataFrame) : list string :=
  match df with
  | DatetimeFrame rows => map category rows
  | ObjectFrame rows => map category rows
  end.

(** [get_categories]: [sorted(df['category'].unique().tolist())], [[]] on an
    empty frame. *)
Definition get_categories (t : Tracker) : list string :=
  if negb (empty (expenses_df t)) then
    sort_keys String.leb (unique String.eqb (categories_of (expenses_df t)))
  else [].

Section Pages.

(** The parameters of the store model. *)
Variable csv_of_datetime : Date -> string.
Variable str_of_stamp : Date -> string.

(** The "Set Budget" handler of [show_budget_management] (app.py, lines
    410-412): [tracker.budgets[category] = budget_amount], then
    [tracker.save_data()]. *)
Definition set_budget (t : Tracker) (category : string) (budget_amount : Q)
  : Tracker * Disk :=
  let t' := mkTracker (expenses_df t) (<[category := budget_amount]> (budgets t)) in
  (t', save_data csv_of_datetime str_of_stamp t').

End Pages.

(** The "small expenses add up" recommendation of [show_ai_insights] (app.py,
    lines 504-507), on the records of a frame whose dates are timestamps: the
    number and the total of the expenses under 100 when there are more than
    10 of them. *)
Definition small_expenses_signal (rows : list (Row Date)) : option (nat * Q) :=
  let small_expenses := List.filter (fun r => Qltb (amount r) 100) rows in
  if (10 <? length small_expenses)%nat then
    Some (length small_expenses, Qsum (map amount small_expenses))
  else None.

(** Three months with the same total. *)
Definition steady_rows : list (Row Date) :=
  [ mkRow (mkDate 2024 1 5) "Rent" 900%Q "january" None None;
    mkRow (mkDate 2024 2 5) "Rent" 900%Q "february" None None;
    mkRow (mkDate 2024 3 5) "Rent" 400%Q "march" None None;
    mkRow (mkDate 2024 3 9) "Food" 500%Q "march" None None ].

(** * Properties *)

(** ** Comparisons and sums on [Q] *)

Lemma Qltb_lt (a b : Q) : Qltb a b = true <-> (a < b)%Q.
Proof.
  unfold Qltb. rewrite negb_true_iff. split.
  - intros H. apply Qnot_le_lt. intros Hle.
    apply Qle_bool_iff in Hle. congruence.
  - intros H. destruct (Qle_bool b a) eqn:E; [|reflexivity].
    apply Qle_bool_iff in E. exfalso. apply (Qlt_not_le _ _ H E).
Qed.

Lemma Qltb_ge (a b : Q) : Qltb a b = false <-> (b <= a)%Q.
Proof.
  unfold Qltb. rewrite negb_false_iff. apply Qle_bool_iff.
Qed.

Lemma Qeqb_eq (a b : Q) : Qeqb a b = true <-> (a == b)%Q.
Proof. apply Qeq_bool_iff. Qed.

Lemma Qeqb_neq (a b : Q) : Qeqb a b = false <-> ~ (a == b)%Q.
Proof.
  unfold Qeqb. split.
  - intros H Heq. apply Qeq_bool_iff in Heq. congruence.
  - intros H. destruct (Qeq_bool a b) eqn:E; [|reflexivity].
    apply Qeq_bool_iff in E. contradiction.
Qed.

Lemma Qsum_ext {A} (f g : A -> Q) (l : list A) :
  (forall a, In a l -> (f a == g a)%Q) ->
  (Qsum (map f l) == Qsum (map g l))%Q.
Proof.
  induction l as [|a l IH]; simpl; intros H.
  - reflexivity.
  - rewrite (H a) by (left; reflexivity).
    rewrite IH by (intros; apply H; right; assumption).
    reflexivity.
Qed.

Lemma Qsum_plus {A} (f g : A -> Q) (l : list A) :
  (Qsum (map (fun a => f a + g a) l) == Qsum (map f l) + Qsum (map g l))%Q.
Proof.
  induction l as [|a l IH]; simpl.
  - ring.
  - rewrite IH. ring.
Qed.

Lemma Qsum_const {A} (c : Q) (l : list A) :
  (Qsum (map (fun _ => c) l) == inject_Z (Z.of_nat (length l)) * c)%Q.
Proof.
  induction l as [|a l IH].
  - simpl. ring.
  - cbn [map Qsum length]. rewrite IH, Nat2Z.inj_succ.
    unfold Z.succ. rewrite inject_Z_plus. ring.
Qed.

Lemma Qsum_nonneg (l : list Q) :
  (forall x, In x l -> (0 <= x)%Q) -> (0 <= Qsum l)%Q.
Proof.
  induction l as [|x l IH]; simpl; intros H.
  - apply Qle_refl.
  - assert (0 <= x)%Q by (apply H; left; reflexivity).
    assert (0 <= Qsum l)%Q by (apply IH; intros; apply H; right; assumption).
    qlra.
Qed.

(** ** Grouping *)

Section GroupByFacts.

Context {K R : Type}.
Variable eqb : K -> K -> bool.
Variable leb : K -> K -> bool.
Variable key : R -> K.
Variable val : R -> Q.
Hypothesis eqb_eq : forall a b, eqb a b = true <-> a = b.

Lemma sort_insert_perm (k : K) (l : list K) :
  Permutation (sort_insert leb k l) (k :: l).
Proof.
  induction l as [|h t IH]; simpl.
  - reflexivity.
  - destruct (leb k h).
    + reflexivity.
    + rewrite IH. apply perm_swap.
Qed.

Lemma sort_keys_perm (l : list K) : Permutation (sort_keys leb l) l.
Proof.
  induction l as [|h t IH]; simpl.
  - reflexivity.
  - rewrite sort_insert_perm. apply perm_skip, IH.
Qed.

Lemma unique_In (k : K) (l : list K) : In k (unique eqb l) <-> In k l.
Proof.
  induction l as [|h t IH]; simpl.
  - reflexivity.
  - rewrite List.filter_In, IH, negb_true_iff. split.
    + intros [H|[H _]]; auto.
    + intros [H|H]; auto.
      destruct (eqb h k) eqn:E.
      * left. apply eqb_eq, E.
      * right. auto.
Qed.

Lemma unique_NoDup (l : list K) : List.NoDup (unique eqb l).
Proof.
  induction l as [|h t IH]; simpl.
  - constructor.
  - constructor.
    + rewrite List.filter_In, negb_true_iff. intros [_ E].
      assert (eqb h h = true) by (apply eqb_eq; reflexivity). congruence.
    + apply List.NoDup_filter, IH.
Qed.

(** The group keys are the keys that occur, each once. *)
Lemma groupby_keys (rows : list R) :
  map fst (groupby_sum eqb leb key val rows)
  = sort_keys leb (unique eqb (map key rows)).
Proof.
  unfold groupby_sum. rewrite map_map. simpl. apply map_id.
Qed.

Lemma groupby_keys_In (k : K) (rows : list R) :
  In k (map fst (groupby_sum eqb leb key val rows))
  <-> exists r, In r rows /\ key r = k.
Proof.
  rewrite groupby_keys.
  rewrite (Permutation_in' (eq_refl k) (sort_keys_perm _)) at 1.
  rewrite unique_In, in_map_iff. split; intros [r [H1 H2]]; eauto.
Qed.

Lemma groupby_keys_NoDup (rows : list R) :
  List.NoDup (map fst (groupby_sum eqb leb key val rows)).
Proof.
  rewrite groupby_keys.
  eapply Permutation_NoDup; [symmetry; apply sort_keys_perm|].
  apply unique_NoDup.
Qed.

Lemma groupby_In (k : K) (q : Q) (rows : list R) :
  In (k, q) (groupby_sum eqb leb key val rows)
  <-> (exists r, In r rows /\ key r = k) /\ q = group_sum eqb key val k rows.
Proof.
  rewrite <- groupby_keys_In. unfold groupby_sum at 1.
  rewrite in_map_iff. split.
  - intros [k' [E Hk]]. inversion E; subst. split; [|reflexivity].
    rewrite groupby_keys. exact Hk.
  - intros [Hk ->]. exists k. split; [reflexivity|].
    rewrite groupby_keys in Hk. exact Hk.
Qed.

End GroupByFacts.

(** ** Aggregator and budget monitor *)

Lemma string_eqb_eq (a b : string) : String.eqb a b = true <-> a = b.
Proof. apply String.eqb_eq. Qed.

Lemma length_zero_nil {A} (l : list A) : Nat.eqb (length l) 0 = true -> l = [].
Proof. destruct l; simpl; [reflexivity | discriminate]. Qed.

Lemma get_category_totals_eq (rows : list (Row Date)) (b : gmap string Q) (y m : Z) :
  get_category_totals (loaded rows b) y m
  = Returns (category_totals_of (List.filter (in_month y m) rows)).
Proof.
  unfold get_category_totals, get_monthly_summary. simpl.
  destruct (Nat.eqb _ 0) eqn:E; [|reflexivity].
  apply length_zero_nil in E. rewrite E. reflexivity.
Qed.

Lemma check_budget_alerts_eq (rows : list (Row Date)) (b : gmap string Q) (y m : Z) :
  check_budget_alerts (loaded rows b) y m
  = Returns (omap (alert_of b)
                  (category_totals_of (List.filter (in_month y m) rows))).
Proof.
  unfold check_budget_alerts. rewrite get_category_totals_eq.
  unfold get_monthly_summary. simpl.
  destruct (Nat.eqb _ 0) eqn:E; [|reflexivity].
  apply length_zero_nil in E. rewrite E. reflexivity.
Qed.

Lemma alert_of_Some (b : gmap string Q) (c : string) (q : Q) (a : BudgetAlert) :
  alert_of b (c, q) = Some a
  <-> (0 < budget_of b c)%Q /\ (budget_of b c < q)%Q
      /\ a = mkAlert c (budget_of b c) q (q - budget_of b c)%Q.
Proof.
  unfold alert_of, budget_of. simpl.
  destruct (Qltb 0 _) eqn:E1; simpl.
  - destruct (Qltb _ q) eqn:E2.
    + apply Qltb_lt in E1, E2. split.
      * intros [= <-]. auto.
      * intros (_ & _ & ->). reflexivity.
    + apply Qltb_ge in E2. split; [discriminate|].
      intros (_ & H & _). exfalso. apply (Qlt_not_le _ _ H E2).
  - apply Qltb_ge in E1. split; [discriminate|].
    intros (H & _). exfalso. apply (Qlt_not_le _ _ H E1).
Qed.

Lemma category_totals_In (md : list (Row Date)) (c : string) (q : Q) :
  In (c, q) (category_totals_of md)
  <-> (exists r, In r md /\ category r = c)
      /\ q = Qsum (map amount (List.filter (fun r => String.eqb (category r) c) md)).
Proof.
  unfold category_totals_of. rewrite (groupby_In _ _ _ _ string_eqb_eq).
  reflexivity.
Qed.

Lemma alerts_In (b : gmap string Q) (rows : list (Row Date)) (y m : Z) (a : BudgetAlert) :
  In a (omap (alert_of b) (category_totals_of (List.filter (in_month y m) rows)))
  <-> has_record rows y m (alert_category a)
      /\ (0 < budget_of b (alert_category a))%Q
      /\ (budget_of b (alert_category a) < spent rows y m (alert_category a))%Q
      /\ a = mkAlert (alert_category a) (budget_of b (alert_category a))
                     (spent rows y m (alert_category a))
                     (spent rows y m (alert_category a)
                      - budget_of b (alert_category a))%Q.
Proof.
  rewrite <- list_elem_of_In, list_elem_of_omap. split.
  - intros [[c q] [Hin Ha]]. apply list_elem_of_In, category_totals_In in Hin.
    apply alert_of_Some in Ha. destruct Ha as (H1 & H2 & ->). simpl.
    destruct Hin as [[r [Hr Hc]] ->]. apply List.filter_In in Hr.
    split; [exists r; tauto|]. unfold spent. auto.
  - intros (Hrec & H1 & H2 & Ha).
    exists (alert_category a, spent rows y m (alert_category a)). split.
    + apply list_elem_of_In, category_totals_In. split; [|reflexivity].
      destruct Hrec as [r (Hr & Hm & Hc)]. exists r. split; [|exact Hc].
      apply List.filter_In. auto.
    + rewrite Ha at 3. apply alert_of_Some. auto.
Qed.

(** *** Before the first data file and between an append and the next load

    [load_data] leaves a datetime64 [date] column only when it has read a
    data file.  With no data file, and after [add_expense], the column holds
    objects, and every query that reads [.dt] of it raises. *)


(** C1.  On the tracker that [load_data] builds when there is no data file,
    whatever the budgets, [check_budget_alerts] raises [AttributeError] for
    every year and month: the month has no records, and the call does not
    return the empty list.  The same holds on every frame whose date column
    holds objects, as after [add_expense]. *)
Theorem check_budget_alerts_no_data_file
    (to_datetime : list string -> list (option Date))
    (budget_file : option (gmap string Q)) (y m : Z) :
  check_budget_alerts (load_data to_datetime (mkDisk None budget_file)) y m
  = Raises AttributeError
  /\ forall rows b,
       check_budget_alerts (mkTracker (ObjectFrame rows) b) y m
       = Raises AttributeError.
Proof. split; reflexivity. Qed.

(** C5.  On the tracker that [load_data] builds when there is no data file,
    [get_monthly_summary] and [get_category_totals] raise [AttributeError]
    for every year and month: the month has no records, and neither call
    returns an empty result. *)
Theorem get_category_totals_no_data_file
    (to_datetime : list string -> list (option Date))
    (budget_file : option (gmap string Q)) (y m : Z) :
  get_monthly_summary (load_data to_datetime (mkDisk None budget_file)) y m
  = Raises AttributeError
  /\ get_category_totals (load_data to_datetime (mkDisk None budget_file)) y m
     = Raises AttributeError.
Proof. split; reflexivity. Qed.

(** ** Forecaster *)

Lemma ym_eqb_eq (a b : Z * Z) : ym_eqb a b = true <-> a = b.
Proof.
  destruct a as [a1 a2], b as [b1 b2]. unfold ym_eqb. simpl.
  rewrite andb_true_iff, !Z.eqb_eq. split.
  - intros [-> ->]. reflexivity.
  - intros [= -> ->]. auto.
Qed.

Lemma filter_map_comm {A B} (f : A -> B) (p : B -> bool) (l : list A) :
  List.filter p (map f l) = map f (List.filter (fun a => p (f a)) l).
Proof.
  induction l as [|a l IH]; simpl; [reflexivity|].
  destruct (p (f a)); simpl; rewrite IH; reflexivity.
Qed.

Lemma monthly_entries (rows : list (Row Date)) :
  omap ym_entry (map set_year_month rows)
  = map (fun r => (ym_of r, amount r)) rows.
Proof.
  induction rows as [|r rows IH]; [reflexivity|].
  cbn [map omap list_omap]. rewrite <- IH. reflexivity.
Qed.

(** The monthly totals after the derived columns are written: one row per
    bucket of the collection, in ascending [(year, month)] order. *)
Lemma monthly_totals_eq (rows : list (Row Date)) :
  monthly_totals_of (map set_year_month rows)
  = map (fun k => (k, month_total rows k))
        (sort_keys ym_leb (month_buckets rows)).
Proof.
  unfold monthly_totals_of, groupby_sum, month_buckets, month_total.
  rewrite monthly_entries, map_map. simpl.
  apply map_ext. intros k. f_equal. unfold group_sum, group.
  rewrite filter_map_comm, map_map. reflexivity.
Qed.

Lemma monthly_totals_length (rows : list (Row Date)) :
  length (monthly_totals_of (map set_year_month rows))
  = length (month_buckets rows).
Proof.
  rewrite monthly_totals_eq, length_map.
  apply Permutation_length, sort_keys_perm.
Qed.

Lemma month_buckets_In (rows : list (Row Date)) (k : Z * Z) :
  In k (month_buckets rows) <-> exists r, In r rows /\ ym_of r = k.
Proof.
  unfold month_buckets. rewrite (unique_In _ ym_eqb_eq), in_map_iff.
  split; intros [r [H1 H2]]; eauto.
Qed.

Lemma month_buckets_NoDup (rows : list (Row Date)) :
  List.NoDup (month_buckets rows).
Proof. apply (unique_NoDup _ ym_eqb_eq). Qed.

(** The three outcomes of [predict_next_month] on a timestamp frame. *)
Lemma predict_next_month_eq (rows : list (Row Date)) (b : gmap string Q)
    (now : Date) :
  predict_next_month (loaded rows b) now
  = if (length rows <? 3)%nat then
      (loaded rows b, Returns (None, "Not enough data for prediction"%string))
    else
      (loaded (map set_year_month rows) b,
       if (length (month_buckets rows) <? 3)%nat then
         Returns (None, "Not enough monthly data for prediction"%string)
       else
         Returns
           (Some (max0 (predict
                    (fit (training_points
                            (monthly_totals_of (map set_year_month rows))))
                    (inject_Z (d_year now * 12 + d_month now + 1)))),
            "Prediction based on historical data"%string)).
Proof.
  unfold predict_next_month. cbn [loaded expenses_df len budgets with_frame].
  rewrite monthly_totals_length.
  destruct (Nat.ltb_spec (length rows) 3) as [H|H].
  - rewrite (proj2 (Z.ltb_lt _ _)) by lia. reflexivity.
  - rewrite (proj2 (Z.ltb_ge _ _)) by lia.
    destruct (Nat.ltb_spec (length (month_buckets rows)) 3) as [H'|H'].
    + rewrite (proj2 (Z.ltb_lt _ _)) by lia. reflexivity.
    + rewrite (proj2 (Z.ltb_ge _ _)) by lia. reflexivity.
Qed.



(** *** The fitted line is a least-squares line *)

Lemma inject_Z_succ (k : nat) :
  (inject_Z (Z.of_nat (S k)) == inject_Z (Z.of_nat k) + 1)%Q.
Proof. rewrite Nat2Z.inj_succ. unfold Z.succ. rewrite inject_Z_plus. reflexivity. Qed.

Lemma inject_Z_length_pos {A} (l : list A) :
  l <> [] -> (0 < inject_Z (Z.of_nat (length l)))%Q.
Proof.
  destruct l; [congruence|]. intros _.
  change 0%Q with (inject_Z 0). rewrite <- Zlt_Qlt. simpl length. lia.
Qed.

Lemma Qsquare_nonneg (x : Q) : (0 <= x * x)%Q.
Proof. qnra. Qed.

Lemma Qsum_sq_zero {A} (f : A -> Q) (l : list A) :
  (Qsum (map (fun a => f a * f a) l) == 0)%Q ->
  forall a, In a l -> (f a == 0)%Q.
Proof.
  induction l as [|x l IH]; simpl; intros H a Ha; [destruct Ha|].
  assert (Hl : (0 <= Qsum (map (fun a => f a * f a) l))%Q).
  { apply Qsum_nonneg. intros q Hq. apply in_map_iff in Hq.
    destruct Hq as [z [<- _]]. apply Qsquare_nonneg. }
  assert (Hx : (0 <= f x * f x)%Q) by apply Qsquare_nonneg.
  destruct Ha as [<-|Ha].
  - assert (E : (f x * f x == 0)%Q) by qlra.
    destruct (Qmult_integral _ _ E); assumption.
  - apply IH; [qlra | assumption].
Qed.

Section Regression.

Variable pts : list (Q * Q).

Let n : Q := inject_Z (Z.of_nat (length pts)).
Let sx : Q := Qsum (map fst pts).
Let sy : Q := Qsum (map snd pts).
Let sxx : Q := Qsum (map (fun p => p.1 * p.1)%Q pts).
Let sxy : Q := Qsum (map (fun p => p.1 * p.2)%Q pts).

(** Sums of residuals of the line [a * x + b]. *)
Lemma residual_sum (a b : Q) :
  (Qsum (map (fun p => p.2 - (a * p.1 + b)) pts) == sy - a * sx - n * b)%Q.
Proof.
  subst n sx sy. induction pts as [|p l IH].
  - simpl. ring.
  - cbn [map Qsum length]. rewrite IH, inject_Z_succ. ring.
Qed.

Lemma residual_moment (a b : Q) :
  (Qsum (map (fun p => (p.2 - (a * p.1 + b)) * p.1) pts)
   == sxy - a * sxx - b * sx)%Q.
Proof.
  subst sx sxx sxy. induction pts as [|p l IH].
  - simpl. ring.
  - cbn [map Qsum]. rewrite IH. ring.
Qed.

Lemma centred_squares (c : Q) :
  (Qsum (map (fun p => (p.1 - c) * (p.1 - c)) pts)
   == sxx - 2 * c * sx + n * c * c)%Q.
Proof.
  subst n sx sxx. induction pts as [|p l IH].
  - simpl. ring.
  - cbn [map Qsum length]. rewrite IH, inject_Z_succ. ring.
Qed.

Lemma centred_products (c d : Q) :
  (Qsum (map (fun p => (p.1 - c) * (p.2 - d)) pts)
   == sxy - d * sx - c * sy + n * c * d)%Q.
Proof.
  subst n sx sy sxy. induction pts as [|p l IH].
  - simpl. ring.
  - cbn [map Qsum length]. rewrite IH, inject_Z_succ. ring.
Qed.

(** Squared error of another line, around the line [a * x + b]. *)
Lemma sse_shift (a b a' b' : Q) :
  (sse pts (mkModel a' b')
   == sse pts (mkModel a b)
      + 2 * ((a - a') * Qsum (map (fun p => (p.2 - (a * p.1 + b)) * p.1) pts)
             + (b - b') * Qsum (map (fun p => p.2 - (a * p.1 + b)) pts))
      + Qsum (map (fun p => ((a - a') * p.1 + (b - b'))
                            * ((a - a') * p.1 + (b - b'))) pts))%Q.
Proof.
  unfold sse. cbn [coef_ intercept_].
  induction pts as [|p l IH].
  - simpl. ring.
  - cbn [map Qsum]. rewrite IH. ring.
Qed.

Hypothesis nonempty : pts <> [].

Lemma n_pos : (0 < n)%Q.
Proof. apply inject_Z_length_pos, nonempty. Qed.

Lemma Sxx_raw : (Sxx pts == sxx - sx * sx / n)%Q.
Proof.
  pose proof n_pos as Hn. unfold Sxx. cbn zeta. rewrite centred_squares.
  unfold Qmean. rewrite length_map. fold n sx. field.
  intros E. rewrite E in Hn. apply (Qlt_irrefl 0), Hn.
Qed.

Lemma Sxy_raw : (Sxy pts == sxy - sx * sy / n)%Q.
Proof.
  pose proof n_pos as Hn. unfold Sxy. cbn zeta. rewrite centred_products.
  unfold Qmean. rewrite !length_map. fold n sx sy. field.
  intros E. rewrite E in Hn. apply (Qlt_irrefl 0), Hn.
Qed.

(** When the centred squares of x vanish, so do the centred products. *)
Lemma Sxx_zero_Sxy : (Sxx pts == 0)%Q -> (Sxy pts == 0)%Q.
Proof.
  intros H. unfold Sxy. cbn zeta.
  rewrite (Qsum_ext _ (fun _ => 0%Q)).
  - rewrite Qsum_const. ring.
  - intros p Hp.
    rewrite (Qsum_sq_zero (fun p => p.1 - Qmean (map fst pts))%Q pts H p Hp).
    ring.
Qed.

Lemma coef_Sxx : (coef_ (fit pts) * Sxx pts == Sxy pts)%Q.
Proof.
  unfold fit. cbn [coef_].
  destruct (Qeq_dec (Sxx pts) 0) as [E|E].
  - rewrite (Sxx_zero_Sxy E), E. ring.
  - field. exact E.
Qed.

Lemma intercept_eq :
  (intercept_ (fit pts) == sy / n - coef_ (fit pts) * (sx / n))%Q.
Proof.
  unfold fit, Qmean. cbn [coef_ intercept_]. rewrite !length_map.
  reflexivity.
Qed.

(** The normal equations. *)
Lemma fit_residual_sum :
  (Qsum (map (fun p => p.2 - (coef_ (fit pts) * p.1 + intercept_ (fit pts))) pts)
   == 0)%Q.
Proof.
  pose proof n_pos as Hn. rewrite residual_sum, intercept_eq. field.
  intros E. rewrite E in Hn. apply (Qlt_irrefl 0), Hn.
Qed.

Lemma fit_residual_moment :
  (Qsum (map (fun p => (p.2 - (coef_ (fit pts) * p.1 + intercept_ (fit pts)))
                       * p.1) pts)
   == 0)%Q.
Proof.
  pose proof n_pos as Hn. pose proof coef_Sxx as Hc.
  rewrite Sxx_raw, Sxy_raw in Hc.
  rewrite residual_moment, intercept_eq.
  assert (Hn' : ~ (n == 0)%Q).
  { intros E. rewrite E in Hn. apply (Qlt_irrefl 0), Hn. }
  transitivity (sxy - sx * sy / n - coef_ (fit pts) * (sxx - sx * sx / n))%Q.
  - field. exact Hn'.
  - rewrite Hc. ring.
Qed.

Lemma fit_least_squares : is_least_squares pts (fit pts).
Proof.
  intros a b.
  rewrite (sse_shift (coef_ (fit pts)) (intercept_ (fit pts)) a b).
  rewrite fit_residual_sum, fit_residual_moment.
  assert (H : (0 <= Qsum (map (fun p =>
                ((coef_ (fit pts) - a) * p.1 + (intercept_ (fit pts) - b))
                * ((coef_ (fit pts) - a) * p.1 + (intercept_ (fit pts) - b)))
                pts))%Q).
  { apply Qsum_nonneg. intros q Hq. apply in_map_iff in Hq.
    destruct Hq as [z [<- _]]. apply Qsquare_nonneg. }
  destruct (fit pts) as [c i]. cbn [coef_ intercept_] in *. qlra.
Qed.

End Regression.

Lemma max0_nonneg (p : Q) : (0 <= max0 p)%Q.
Proof.
  unfold max0. destruct (Qltb 0 p) eqn:E.
  - apply Qltb_lt in E. apply Qlt_le_weak, E.
  - apply Qle_refl.
Qed.

Lemma max0_of_nonneg (p : Q) : (0 <= p)%Q -> (max0 p == p)%Q.
Proof.
  intros H. unfold max0. destruct (Qltb 0 p) eqn:E; [reflexivity|].
  apply Qltb_ge in E. apply Qle_antisym; assumption.
Qed.

Lemma max0_of_nonpos (p : Q) : (p <= 0)%Q -> max0 p = 0%Q.
Proof.
  intros H. unfold max0. destruct (Qltb 0 p) eqn:E; [|reflexivity].
  apply Qltb_lt in E. exfalso. apply (Qlt_not_le _ _ E H).
Qed.

(** *** Data on a line *)

Section LinearData.

Variable pts : list (Q * Q).
Variables slope offset : Q.

Lemma line_sum_y :
  (forall p, In p pts -> (p.2 == slope * p.1 + offset)%Q) ->
  (Qsum (map snd pts)
   == slope * Qsum (map fst pts)
      + inject_Z (Z.of_nat (length pts)) * offset)%Q.
Proof.
  induction pts as [|p l IH]; intros H.
  - simpl. ring.
  - cbn [map Qsum length]. rewrite inject_Z_succ, IH.
    + rewrite (H p) by (left; reflexivity). ring.
    + intros q Hq. apply H. right. exact Hq.
Qed.

Lemma line_sum_xy :
  (forall p, In p pts -> (p.2 == slope * p.1 + offset)%Q) ->
  (Qsum (map (fun p => p.1 * p.2) pts)
   == slope * Qsum (map (fun p => p.1 * p.1) pts)
      + offset * Qsum (map fst pts))%Q.
Proof.
  induction pts as [|p l IH]; intros H.
  - simpl. ring.
  - cbn [map Qsum]. rewrite IH.
    + rewrite (H p) by (left; reflexivity). ring.
    + intros q Hq. apply H. right. exact Hq.
Qed.

Hypothesis on_line : forall p, In p pts -> (p.2 == slope * p.1 + offset)%Q.
Hypothesis two_x : exists p q, In p pts /\ In q pts /\ ~ (p.1 == q.1)%Q.

Lemma line_nonempty : pts <> [].
Proof. destruct two_x as (p & _ & Hp & _). intros E. rewrite E in Hp. destruct Hp. Qed.

Lemma line_Sxx_nonzero : ~ (Sxx pts == 0)%Q.
Proof.
  intros E. destruct two_x as (p & q & Hp & Hq & Hne). apply Hne.
  pose proof (Qsum_sq_zero (fun p => p.1 - Qmean (map fst pts))%Q pts E) as Hz.
  pose proof (Hz p Hp) as H1. pose proof (Hz q Hq) as H2. cbv beta in H1, H2.
  qlra.
Qed.

Lemma line_Sxy : (Sxy pts == slope * Sxx pts)%Q.
Proof.
  pose proof (n_pos pts line_nonempty) as Hn.
  rewrite (Sxy_raw pts line_nonempty), (Sxx_raw pts line_nonempty).
  rewrite (line_sum_xy on_line), (line_sum_y on_line). field.
  intros E. rewrite E in Hn. apply (Qlt_irrefl 0), Hn.
Qed.

Lemma line_coef : (coef_ (fit pts) == slope)%Q.
Proof.
  pose proof (coef_Sxx pts) as Hc. rewrite line_Sxy in Hc.
  assert (E : ((coef_ (fit pts) - slope) * Sxx pts == 0)%Q).
  { transitivity (coef_ (fit pts) * Sxx pts - slope * Sxx pts)%Q; [ring|].
    rewrite Hc. ring. }
  destruct (Qmult_integral _ _ E) as [H|H].
  - qlra.
  - destruct (line_Sxx_nonzero H).
Qed.

Lemma line_intercept : (intercept_ (fit pts) == offset)%Q.
Proof.
  pose proof (n_pos pts line_nonempty) as Hn.
  rewrite (intercept_eq pts), line_coef, (line_sum_y on_line). field.
  intros E. rewrite E in Hn. apply (Qlt_irrefl 0), Hn.
Qed.

(** The fitted line is the line the data lie on. *)
Lemma line_predict (x : Q) : (predict (fit pts) x == slope * x + offset)%Q.
Proof. unfold predict. rewrite line_coef, line_intercept. reflexivity. Qed.

End LinearData.

Lemma NoDup_two {A} (l : list A) :
  List.NoDup l -> (2 <= length l)%nat ->
  exists a b, In a l /\ In b l /\ a <> b.
Proof.
  intros Hnd Hlen. destruct l as [|a [|b l]]; simpl in Hlen; try lia.
  exists a, b. split; [left; reflexivity|]. split; [right; left; reflexivity|].
  inversion Hnd as [|? ? Hnotin _]; subst. intros ->. apply Hnotin. left. reflexivity.
Qed.

Lemma month_num_inj (k1 k2 : Z * Z) :
  1 <= k1.2 <= 12 -> 1 <= k2.2 <= 12 ->
  month_num k1 = month_num k2 -> k1 = k2.
Proof.
  destruct k1 as [y1 m1], k2 as [y2 m2]. unfold month_num. simpl.
  intros H1 H2 E. assert (y1 = y2) by lia. subst. f_equal. lia.
Qed.

(** The exact sum and the exact least-squares line are an instance of the
    library arithmetic. *)
Lemma predict_next_month_with_exact (t : Tracker) (now : Date) :
  predict_next_month_with Qsum (fun pts x => predict (fit pts) x) t now
  = predict_next_month t now.
Proof. reflexivity. Qed.

Section ForecastOnLine.

Variable series_sum : list Q -> Q.
Variable regression : list (Q * Q) -> Q -> Q.

Abbreviation total := (month_total_with series_sum).
Abbreviation points := (training_set_with series_sum).

Lemma monthly_totals_with_eq (rows : list (Row Date)) :
  monthly_totals_with series_sum (map set_year_month rows)
  = map (fun k => (k, total rows k)) (sort_keys ym_leb (month_buckets rows)).
Proof.
  unfold monthly_totals_with, month_buckets, month_total_with.
  rewrite monthly_entries, map_map. cbn [fst].
  apply map_ext. intros k. f_equal. f_equal. unfold group.
  rewrite filter_map_comm, map_map. reflexivity.
Qed.

Lemma predict_next_month_with_eq (rows : list (Row Date)) (b : gmap string Q)
    (now : Date) :
  (3 <= length rows)%nat -> (3 <= length (month_buckets rows))%nat ->
  predict_next_month_with series_sum regression (loaded rows b) now
  = (loaded (map set_year_month rows) b,
     Returns (Some (max0 (regression (points rows)
                            (inject_Z (d_year now * 12 + d_month now + 1)))),
              "Prediction based on historical data"%string)).
Proof.
  intros H1 H2. unfold predict_next_month_with.
  cbn [loaded expenses_df len budgets with_frame].
  rewrite (proj2 (Z.ltb_ge _ _)) by lia.
  rewrite monthly_totals_with_eq, length_map.
  rewrite (Permutation_length (sort_keys_perm ym_leb (month_buckets rows))).
  rewrite (proj2 (Z.ltb_ge _ _)) by lia.
  unfold training_points, training_set_with. rewrite map_map. reflexivity.
Qed.

Lemma points_In (rows : list (Row Date)) (p : Q * Q) :
  In p (points rows)
  <-> exists k, In k (month_buckets rows)
                /\ p = (inject_Z (k.1 * 12 + k.2), total rows k).
Proof.
  unfold training_set_with. rewrite in_map_iff. split.
  - intros [k [<- Hk]]. exists k. split; [|reflexivity].
    apply (Permutation_in _ (sort_keys_perm ym_leb _)), Hk.
  - intros [k [Hk ->]]. exists k. split; [reflexivity|].
    apply (Permutation_in _ (Permutation_sym (sort_keys_perm ym_leb _))), Hk.
Qed.

(** What is taken of the regression routine: on points that lie on a line,
    at two distinct abscissas at least, its prediction at [x] is within
    [tolerance] of the value of the line at [x]. *)
Variable tolerance : list (Q * Q) -> Q -> Q.
Hypothesis regression_on_line :
  forall pts slope offset x,
    (exists p q, In p pts /\ In q pts /\ ~ (p.1 == q.1)%Q) ->
    (forall p, In p pts -> (p.2 == slope * p.1 + offset)%Q) ->
    (Qabs (regression pts x - (slope * x + offset)) <= tolerance pts x)%Q.

(** C7, as amended.  When the monthly totals of at least 3 buckets lie
    exactly on a line in the month index, the value [predict_next_month]
    returns is within the tolerance of the regression routine of the value
    of that line at the month after the clock's month when that value is not
    negative, and of 0 when it is negative; the returned value is never
    negative.  With the clock in the last month of the data the month after
    it is the month immediately following the data. *)
Theorem predict_next_month_linear
    (rows : list (Row Date)) (b : gmap string Q) (now : Date) (slope offset : Q) :
  (3 <= length rows)%nat -> (3 <= length (month_buckets rows))%nat ->
  (forall r, In r rows -> 1 <= d_month (date r) <= 12) ->
  (forall k, In k (month_buckets rows) ->
     (month_total_with series_sum rows k
      == slope * inject_Z (k.1 * 12 + k.2) + offset)%Q) ->
  let pts := training_set_with series_sum rows in
  let next := inject_Z (d_year now * 12 + d_month now + 1) in
  let extrapolated := (slope * next + offset)%Q in
  exists p,
    (predict_next_month_with series_sum regression (loaded rows b) now).2
    = Returns (Some p, "Prediction based on historical data"%string)
    /\ (0 <= p)%Q
    /\ (0 <= extrapolated -> Qabs (p - extrapolated) <= tolerance pts next)%Q
    /\ (extrapolated <= 0 -> Qabs (p - 0) <= tolerance pts next)%Q.
Proof.
  intros H1 H2 Hmonths Hline pts next extrapolated. subst pts.
  assert (Hon : forall p, In p (points rows) -> (p.2 == slope * p.1 + offset)%Q).
  { intros p Hp. apply points_In in Hp.
    destruct Hp as [k [Hk ->]]. cbn [fst snd]. apply Hline, Hk. }
  assert (Htwo : exists p q, In p (points rows) /\ In q (points rows)
                             /\ ~ (p.1 == q.1)%Q).
  { destruct (NoDup_two _ (month_buckets_NoDup rows)) as (k1 & k2 & Hk1 & Hk2 & Hne);
      [lia|].
    exists (inject_Z (k1.1 * 12 + k1.2), total rows k1),
           (inject_Z (k2.1 * 12 + k2.2), total rows k2).
    split; [apply points_In; eauto|].
    split; [apply points_In; eauto|].
    cbn [fst]. intros E. apply Hne. rewrite inject_Z_injective in E.
    apply month_buckets_In in Hk1, Hk2.
    destruct Hk1 as [r1 [Hr1 <-]], Hk2 as [r2 [Hr2 <-]].
    apply month_num_inj; [apply Hmonths, Hr1 | apply Hmonths, Hr2 | exact E]. }
  pose proof (regression_on_line (points rows) slope offset next Htwo Hon) as Hacc.
  fold extrapolated in Hacc.
  set (v := regression (points rows) next) in *.
  set (tol := tolerance (points rows) next) in *.
  apply Qabs_Qle_condition in Hacc.
  exists (max0 v). split; [|split; [|split]].
  - rewrite predict_next_month_with_eq by assumption. reflexivity.
  - apply max0_nonneg.
  - intros He. apply Qabs_Qle_condition. unfold max0.
    destruct (Qltb 0 v) eqn:E; [apply Qltb_lt in E | apply Qltb_ge in E];
      split; qlra.
  - intros He. apply Qabs_Qle_condition. unfold max0.
    destruct (Qltb 0 v) eqn:E; [apply Qltb_lt in E | apply Qltb_ge in E];
      split; qlra.
Qed.

End ForecastOnLine.

(** The exact least-squares line meets what is taken of the regression
    routine, with tolerance 0. *)
Lemma exact_regression_on_line (pts : list (Q * Q)) (slope offset x : Q) :
  (exists p q, In p pts /\ In q pts /\ ~ (p.1 == q.1)%Q) ->
  (forall p, In p pts -> (p.2 == slope * p.1 + offset)%Q) ->
  (Qabs (predict (fit pts) x - (slope * x + offset)) <= 0)%Q.
Proof.
  intros Htwo Hon. pose proof (line_predict pts slope offset Hon Htwo x) as E.
  apply Qabs_Qle_condition. split; qlra.
Qed.

Lemma predict_next_month_linear_witness :
  exists p,
    (predict_next_month_with Qsum (fun pts x => predict (fit pts) x)
                             (loaded rising_rows ∅) (mkDate 2024 3 15)).2
    = Returns (Some p, "Prediction based on historical data"%string)
    /\ (Qabs (p - 1300) <= 0)%Q.
Proof.
  destruct (predict_next_month_linear Qsum (fun pts x => predict (fit pts) x)
              (fun _ _ => 0%Q) exact_regression_on_line
              rising_rows ∅ (mkDate 2024 3 15) 100 (-2427900))
    as (p & Hp & _ & Hv & _).
  - simpl. lia.
  - vm_compute. lia.
  - intros r [<-|[<-|[<-|[]]]]; simpl; lia.
  - intros k [<-|[<-|[<-|[]]]]; vm_compute; reflexivity.
  - exists p. split; [exact Hp|].
    assert (E : (100 * inject_Z (2024 * 12 + 3 + 1) + -2427900 == 1300)%Q)
      by (vm_compute; reflexivity).
    cbn [d_year d_month] in Hv. rewrite E in Hv. apply Hv. discriminate.
Defined.

(** C7, counterexample.  The totals 300, 160, 20 of January to March 2024
    lie on a line whose value at April 2024 is -120.  With the clock in March
    2024 the forecast for April is 0: it is 120 away from the extrapolated
    value. *)
Lemma predict_next_month_linear_counterexample :
  (forall k, In k (month_buckets falling_rows) ->
     (month_total falling_rows k == -140 * inject_Z (k.1 * 12 + k.2) + 3400760)%Q)
  /\ (-140 * inject_Z (2024 * 12 + 3 + 1) + 3400760 == -120)%Q
  /\ exists p,
       (predict_next_month (loaded falling_rows ∅) (mkDate 2024 3 15)).2
       = Returns (Some p, "Prediction based on historical data"%string)
       /\ (p == 0)%Q
       /\ (Qabs (p - (-140 * inject_Z (2024 * 12 + 3 + 1) + 3400760)) == 120)%Q.
Proof.
  split; [|split].
  - intros k [<-|[<-|[<-|[]]]]; vm_compute; reflexivity.
  - vm_compute. reflexivity.
  - eexists. split; [vm_compute; reflexivity|].
    split; vm_compute; reflexivity.
Qed.

(** ** Insight engine *)

Section SortFacts.

Context {K : Type}.
Variable leb : K -> K -> bool.
Hypothesis leb_total : forall a b, leb a b = true \/ leb b a = true.
Hypothesis leb_trans : forall a b c, leb a b = true -> leb b c = true -> leb a c = true.

Lemma sort_insert_sorted (k : K) (l : list K) :
  StronglySorted (fun a b => leb a b = true) l ->
  StronglySorted (fun a b => leb a b = true) (sort_insert leb k l).
Proof.
  induction l as [|h t IH]; simpl; intros Hs.
  - repeat constructor.
  - inversion Hs as [|? ? Hst Hall]; subst.
    destruct (leb k h) eqn:E.
    + constructor; [exact Hs|]. constructor; [exact E|].
      eapply List.Forall_impl; [|exact Hall]. intros a Ha. eapply leb_trans; eauto.
    + constructor; [apply IH, Hst|].
      apply List.Forall_forall. intros a Ha.
      apply (Permutation_in _ (sort_insert_perm leb k t)) in Ha.
      destruct Ha as [<-|Ha].
      * destruct (leb_total k h) as [H|H]; [congruence|exact H].
      * rewrite List.Forall_forall in Hall. apply Hall, Ha.
Qed.

Lemma sort_keys_sorted (l : list K) :
  StronglySorted (fun a b => leb a b = true) (sort_keys leb l).
Proof.
  induction l as [|h t IH]; simpl.
  - constructor.
  - apply sort_insert_sorted, IH.
Qed.

End SortFacts.

Lemma monthly_series_eq (rows : list (Row Date)) :
  map snd (monthly_totals_of (map set_year_month rows)) = monthly_series rows.
Proof.
  rewrite monthly_totals_eq, map_map. reflexivity.
Qed.

Lemma show_ai_insights_eq (rows : list (Row Date)) (b : gmap string Q) :
  show_ai_insights (loaded rows b)
  = match rows with
    | [] => (loaded rows b, Returns None)
    | _ :: _ =>
        (loaded (map set_year_month rows) b,
         Returns (Some (mkInsights (trend_insight (monthly_series rows))
                                   (consistency_insight (monthly_series rows)))))
    end.
Proof.
  destruct rows as [|r rows]; [reflexivity|].
  unfold show_ai_insights.
  cbn [loaded expenses_df empty len length Z.of_nat Z.eqb with_frame budgets].
  rewrite monthly_series_eq. reflexivity.
Qed.

(** *** Coefficient of variation *)

Lemma ratio_gt_pos (s m t : R) :
  (0 < m)%R -> (s / m > t <-> t * m < s)%R.
Proof.
  intros Hm. assert (E : (s / m * m = s)%R) by (field; rlra).
  unfold Rgt. split; intros H.
  - rewrite <- E. apply Rmult_lt_compat_r; assumption.
  - apply (Rmult_lt_reg_r m); [assumption|]. rewrite E. exact H.
Qed.

Lemma sqrt_gt_square (v c : R) :
  (0 <= v)%R -> (0 <= c)%R -> (c < sqrt v <-> c * c < v)%R.
Proof.
  intros Hv Hc. split; intros H.
  - rewrite <- (sqrt_sqrt v Hv). pose proof (sqrt_pos v). rnra.
  - rewrite <- (sqrt_square c Hc). apply sqrt_lt_1_alt. split; [rnra|exact H].
Qed.

(** [cv_exceeds] decides [sqrt var / mean > threshold] over the reals. *)
Lemma cv_exceeds_real (var mean t : Q) :
  (0 <= var)%Q -> (0 <= t)%Q -> ~ (mean == 0)%Q ->
  cv_exceeds var mean t = true
  <-> (sqrt (Q2R var) / Q2R mean > Q2R t)%R.
Proof.
  intros Hv Ht Hm. unfold cv_exceeds.
  rewrite (proj2 (Qeqb_neq mean 0) Hm).
  apply Qle_Rle in Hv, Ht. rewrite RMicromega.Q2R_0 in Hv, Ht.
  destruct (Qltb 0 mean) eqn:E.
  - apply Qltb_lt, Qlt_Rlt in E. rewrite RMicromega.Q2R_0 in E.
    rewrite Qltb_lt, (ratio_gt_pos _ _ _ E), sqrt_gt_square by (try assumption; rnra).
    rewrite <- !Q2R_mult. split; [apply Qlt_Rlt | apply Rlt_Qlt].
  - apply Qltb_ge in E.
    assert (Hneg : (mean < 0)%Q).
    { destruct (Qlt_le_dec mean 0) as [H|H]; [exact H|].
      exfalso. apply Hm. apply Qle_antisym; assumption. }
    apply Qlt_Rlt in Hneg. rewrite RMicromega.Q2R_0 in Hneg.
    split; [discriminate|]. intros H. exfalso.
    pose proof (sqrt_pos (Q2R var)) as Hs.
    assert (Hinv : (/ Q2R mean < 0)%R) by (apply Rinv_lt_0_compat, Hneg).
    unfold Rdiv, Rgt in H. rnra.
Qed.

Lemma sample_var_nonneg (l : list Q) : (2 <= length l)%nat -> (0 <= sample_var l)%Q.
Proof.
  intros H. unfold sample_var. cbv zeta.
  apply Qle_shift_div_l.
  - change 0%Q with (inject_Z 0). rewrite <- Zlt_Qlt. lia.
  - rewrite Qmult_0_l. apply Qsum_nonneg. intros q Hq.
    apply in_map_iff in Hq. destruct Hq as [z [<- _]]. apply Qsquare_nonneg.
Qed.

Lemma consistency_insight_eq (l : list Q) :
  consistency_insight l
  = if (3 <=? length l)%nat then
      Some (if cv_exceeds (sample_var l) (Qmean l) (3 # 10) then Inconsistent
            else Consistent)
    else None.
Proof.
  unfold consistency_insight. destruct (3 <=? length l)%nat; [|reflexivity].
  cbv zeta. destruct (cv_exceeds _ _ _); reflexivity.
Qed.

(** *** The insights after an append *)



(** ** Frame of the derived queries *)


Lemma predict_next_month_state (t : Tracker) (now : Date) :
  (predict_next_month t now).1 = t
  \/ exists rows,
       expenses_df t = DatetimeFrame rows
       /\ (predict_next_month t now).1
          = mkTracker (DatetimeFrame (map set_year_month rows)) (budgets t).
Proof.
  unfold predict_next_month. destruct (len (expenses_df t) <? 3); [left; reflexivity|].
  destruct t as [[rows|rows] b]; cbn [expenses_df].
  - right. exists rows. split; [reflexivity|].
    destruct (Z.of_nat _ <? 3); reflexivity.
  - left. reflexivity.
Qed.

Lemma show_ai_insights_state (t : Tracker) :
  (show_ai_insights t).1 = t
  \/ exists rows,
       expenses_df t = DatetimeFrame rows
       /\ (show_ai_insights t).1
          = mkTracker (DatetimeFrame (map set_year_month rows)) (budgets t).
Proof.
  unfold show_ai_insights. destruct (empty (expenses_df t)); [left; reflexivity|].
  destruct t as [[rows|rows] b]; cbn [expenses_df].
  - right. exists rows. split; reflexivity.
  - left. reflexivity.
Qed.



(** ** Record store *)

Lemma digit_val_digit (n : Z) : digit_val (digit n) = Some (n mod 10).
Proof.
  unfold digit. remember (n mod 10) as k eqn:Ek.
  assert (Hk : 0 <= k < 10) by (subst k; apply Z.mod_pos_bound; lia).
  assert (H : k = 0 \/ k = 1 \/ k = 2 \/ k = 3 \/ k = 4 \/ k = 5 \/ k = 6
              \/ k = 7 \/ k = 8 \/ k = 9) by lia.
  repeat (destruct H as [->|H]; [reflexivity|]). subst k. rewrite H. reflexivity.
Qed.

Lemma num2_digits (a b : Z) :
  num2 (digit a) (digit b) = Some (10 * (a mod 10) + b mod 10).
Proof. unfold num2. rewrite !digit_val_digit. reflexivity. Qed.

Lemma valid_date_bounds (d : Date) :
  valid_date d = true ->
  1 <= d_year d <= 9999 /\ 1 <= d_month d <= 12 /\ 1 <= d_day d <= 31.
Proof.
  unfold valid_date. rewrite !andb_true_iff, !Z.leb_le.
  intros [[[[[H1 H2] H3] H4] H5] H6].
  assert (days_in_month (d_year d) (d_month d) <= 31).
  { unfold days_in_month.
    destruct (d_month d =? 2); [destruct (is_leap _); lia|].
    destruct ((d_month d =? 4) || _ || _ || _); lia. }
  lia.
Qed.

Lemma four_digits (y : Z) :
  1 <= y <= 9999 ->
  100 * (10 * ((y / 1000) mod 10) + (y / 100) mod 10)
  + (10 * ((y / 10) mod 10) + y mod 10) = y.
Proof. intros H. Z.div_mod_to_equations. lia. Qed.

Lemma two_digits (m : Z) :
  1 <= m <= 31 -> 10 * ((m / 10) mod 10) + m mod 10 = m.
Proof. intros H. Z.div_mod_to_equations. lia. Qed.

Lemma omap_cons {A B} (f : A -> option B) (x : A) (l : list A) :
  omap f (x :: l)
  = match f x with
    | Some y => y :: omap f l
    | None => omap f l
    end.
Proof. reflexivity. Qed.

(** The reader of [YYYY-MM-DD] reads back the date text of a timestamp, and
    what [strftime] writes for a year of four digits. *)
Lemma parse_iso_iso_text (d : Date) :
  valid_date d = true -> parse_iso (iso_text d) = Some d.
Proof.
  intros Hv. pose proof (valid_date_bounds d Hv) as (Hy & Hm & Hd).
  destruct d as [y m dd]. cbn [d_year d_month d_day] in *.
  unfold iso_text, digits4, digits2, parse_iso.
  cbv [String.append d_year d_month d_day Ascii.eqb Bool.eqb andb].
  rewrite !num2_digits.
  rewrite (four_digits y Hy), (two_digits m), (two_digits dd) by lia.
  rewrite Hv. reflexivity.
Qed.

Lemma strftime_iso_text (d : Date) : 1000 <= d_year d -> strftime d = iso_text d.
Proof.
  intros H. unfold strftime, iso_text, year_text.
  rewrite !(proj2 (Z.ltb_ge _ _)) by lia. reflexivity.
Qed.

Lemma parse_iso_strftime (d : Date) :
  valid_date d = true -> 1000 <= d_year d -> parse_iso (strftime d) = Some d.
Proof. intros Hv Hy. rewrite strftime_iso_text by exact Hy. apply parse_iso_iso_text, Hv. Qed.

(** Neither form of text reads in the other format. *)
Lemma parse_iso_stamp_text (d : Date) : parse_iso (stamp_text d) = None.
Proof. reflexivity. Qed.

Lemma parse_iso_datetime_strftime (d : Date) : parse_iso_datetime (strftime d) = None.
Proof.
  unfold parse_iso_datetime, strftime, year_text.
  destruct (d_year d <? 10); [reflexivity|].
  destruct (d_year d <? 100); [reflexivity|].
  destruct (d_year d <? 1000); reflexivity.
Qed.

Lemma parse_iso_datetime_stamp_text (d : Date) :
  valid_date d = true -> parse_iso_datetime (stamp_text d) = Some d.
Proof.
  intros Hv. unfold parse_iso_datetime.
  change (String.length (stamp_text d)) with 19%nat.
  change (substring 10 9 (stamp_text d)) with " 00:00:00"%string.
  change (substring 0 10 (stamp_text d)) with (iso_text d).
  change ((19 =? 19)%nat && parse_time " 00:00:00") with true.
  cbv iota. apply parse_iso_iso_text, Hv.
Qed.

Lemma parse_iso_valid (s : string) (d : Date) :
  parse_iso s = Some d -> valid_date d = true.
Proof.
  unfold parse_iso.
  do 10 (destruct s as [|? s]; [discriminate|]).
  destruct s; [|discriminate].
  destruct (_ && _); [|discriminate].
  destruct (num2 _ _); [|discriminate].
  destruct (num2 _ _); [|discriminate].
  destruct (num2 _ _); [|discriminate].
  destruct (num2 _ _); [|discriminate].
  cbv zeta. destruct (valid_date _) eqn:E; [|discriminate].
  intros [= <-]. exact E.
Qed.

Lemma parse_iso_datetime_valid (s : string) (d : Date) :
  parse_iso_datetime s = Some d -> valid_date d = true.
Proof.
  unfold parse_iso_datetime. destruct (_ && _); [|discriminate].
  apply parse_iso_valid.
Qed.

Lemma to_datetime_infer_valid (column : list string) (d : Date) :
  In (Some d) (to_datetime_infer column) -> valid_date d = true.
Proof.
  unfold to_datetime_infer. destruct (List.find _ column) as [first|].
  - destruct (guess_datetime_format first) as [[|]|];
      rewrite in_map_iff; intros [s [E _]].
    + apply (parse_iso_valid s), E.
    + apply (parse_iso_datetime_valid s), E.
    + unfold parse_date in E. destruct (parse_iso s) as [d'|] eqn:E'.
      * injection E as <-. apply (parse_iso_valid s), E'.
      * apply (parse_iso_datetime_valid s), E.
  - rewrite in_map_iff. intros [s [E _]]. discriminate E.
Qed.

(** What [load_data] keeps of a data file: the rows whose date cell the
    column parse resolved, each with the date it resolved to. *)
Lemma dropna_date_In (file_rows : list (Row string)) (dates : list (option Date))
    (r : Row Date) :
  In r (dropna_date file_rows dates)
  <-> exists (i : nat) fr d,
        file_rows !! i = Some fr /\ dates !! i = Some (Some d)
        /\ r = retag (fun _ => d) fr.
Proof.
  revert dates. induction file_rows as [|fr0 frs IH]; intros dates.
  - simpl. split; [intros []|]. intros (i & fr & d & H & _). destruct i; discriminate H.
  - destruct dates as [|[d0|] ds]; cbn [dropna_date].
    + split; [intros []|]. intros (i & fr & d & _ & H & _). destruct i; discriminate H.
    + cbn [In]. rewrite IH. split.
      * intros [<-|(i & fr & d & H1 & H2 & ->)].
        -- exists 0%nat, fr0, d0. auto.
        -- exists (S i), fr, d. auto.
      * intros (i & fr & d & H1 & H2 & ->). destruct i as [|i].
        -- left. injection H1 as <-. injection H2 as <-. reflexivity.
        -- right. exists i, fr, d. auto.
    + rewrite IH. split.
      * intros (i & fr & d & H1 & H2 & ->). exists (S i), fr, d. auto.
      * intros (i & fr & d & H1 & H2 & ->). destruct i as [|i]; [discriminate H2|].
        exists i, fr, d. auto.
Qed.

Lemma dropna_date_source (file_rows : list (Row string)) (dates : list (option Date))
    (r : Row Date) :
  In r (dropna_date file_rows dates) ->
  In (Some (date r)) dates
  /\ exists fr, In fr file_rows /\ category r = category fr
                /\ amount r = amount fr /\ description r = description fr.
Proof.
  rewrite dropna_date_In. intros (i & fr & d & H1 & H2 & ->). split.
  - apply list_elem_of_In, list_elem_of_lookup. exists i. exact H2.
  - exists fr. split; [|auto]. apply list_elem_of_In, list_elem_of_lookup.
    exists i. exact H1.
Qed.

Lemma dropna_date_dates (file_rows : list (Row string)) (dates : list (option Date)) :
  map date (dropna_date file_rows dates)
  = resolved_dates (firstn (length file_rows) dates).
Proof.
  revert dates. induction file_rows as [|fr frs IH]; intros dates; [reflexivity|].
  destruct dates as [|[d|] ds]; cbn [dropna_date length firstn]; [reflexivity| |].
  - unfold resolved_dates. rewrite omap_cons. cbn [map]. f_equal. apply IH.
  - unfold resolved_dates. rewrite omap_cons. apply IH.
Qed.

Lemma retag_read_back (r : Row Date) (text : DateCell -> string) :
  retag (fun _ => date r) (retag text (retag Stamp r)) = r.
Proof. destruct r. reflexivity. Qed.

(** Rows written from timestamps and read back in the format of their text
    come back as they were; a row of another form after them is dropped. *)
Lemma dropna_date_stamps (rows : list (Row Date)) (text : DateCell -> string)
    (last : list (Row string)) :
  dropna_date (map (retag text) (map (retag Stamp) rows) ++ last)
              (map (fun r => Some (date r)) rows ++ map (fun _ => None) last)
  = rows.
Proof.
  induction rows as [|r rows IH].
  - simpl. induction last as [|x last IH]; [reflexivity|exact IH].
  - cbn [map app dropna_date]. rewrite IH.
    f_equal. apply (retag_read_back r text).
Qed.

(** After a load that found records, an expense added with a date object is
    not among the records of the next load. *)
Lemma reload_after_append (rows : list (Row Date)) (b : gmap string Q)
    (d : Date) (c : string) (a : Q) (descr : string) :
  rows <> [] ->
  (forall r, In r rows -> valid_date (date r) = true) ->
  load_data to_datetime_infer
            (add_expense datetime_text stamp_text (loaded rows b)
                         (DateObj d) c a descr).2
  = loaded rows b.
Proof.
  intros Hne Hvalid. unfold add_expense, load_data, loaded.
  cbn [snd save_data with_frame expenses_df budgets data_file budget_file
       to_csv as_objects].
  f_equal. f_equal.
  rewrite map_app, !map_map. cbn [map].
  rewrite <- (dropna_date_stamps rows (cell_text stamp_text)
                [retag (cell_text stamp_text)
                       (mkRow (Text (strftime d)) c a descr None None)]) at 3.
  rewrite map_map. f_equal.
  destruct rows as [|r0 rows']; [congruence|].
  unfold to_datetime_infer. cbn [map app List.find retag date cell_text].
  change (negb (String.eqb (stamp_text (date r0)) "")) with true. cbv iota.
  unfold guess_datetime_format.
  rewrite parse_iso_stamp_text, parse_iso_datetime_stamp_text
    by (apply Hvalid; left; reflexivity).
  cbn [map app strptime]. f_equal.
  - apply parse_iso_datetime_stamp_text, Hvalid. left. reflexivity.
  - rewrite !map_app, !map_map. cbn [map retag date cell_text strptime].
    rewrite parse_iso_datetime_strftime. f_equal.
    apply map_ext_in. intros r Hr.
    apply parse_iso_datetime_stamp_text, Hvalid. right. exact Hr.
Qed.

(** C6.  Whatever the files hold, once [load_data] has found at least one
    record, an expense added by [add_expense] with a date object is in memory
    and in the data file, and is gone after the next [load_data]: the reload
    gives back the tracker as it was before the expense was added.  The
    timestamps of the earlier records are written with their time, the new
    date without, and the column is read in the format of its first cell. *)
Theorem add_expense_reload_loses_record
    (disk : Disk) (d : Date) (c : string) (a : Q) (descr : string) :
  let t := load_data to_datetime_infer disk in
  let added := add_expense datetime_text stamp_text t (DateObj d) c a descr in
  0 < len (expenses_df t) ->
  In (mkRow (Text (strftime d)) c a descr None None) (stored added)
  /\ (exists file_rows,
        data_file added.2 = Some file_rows
        /\ In (mkRow (strftime d) c a descr None None) file_rows)
  /\ load_data to_datetime_infer added.2 = t.
Proof.
  cbv zeta. intros Hlen. split; [|split].
  - unfold stored, add_expense. cbn [fst with_frame expenses_df as_objects].
    apply in_or_app. right. left. reflexivity.
  - eexists. split; [reflexivity|].
    cbn [with_frame expenses_df to_csv]. rewrite map_app.
    apply in_or_app. right. left. reflexivity.
  - unfold load_data in *. destruct (data_file disk) as [file_rows|];
      [|simpl in Hlen; lia].
    set (rows := dropna_date file_rows (to_datetime_infer (map date file_rows))) in *.
    set (b := match budget_file disk with Some b => b | None => ∅ end).
    change (mkTracker (DatetimeFrame rows) b) with (loaded rows b).
    apply reload_after_append.
    + intros E. rewrite E in Hlen. simpl in Hlen. lia.
    + intros r Hr. apply dropna_date_source in Hr. destruct Hr as [Hr _].
      apply (to_datetime_infer_valid _ _ Hr).
Qed.

Section StoreTheorems.

Variable to_datetime : list string -> list (option Date).
Variable csv_of_datetime : Date -> string.
Variable str_of_stamp : Date -> string.

Abbreviation run_store := (run to_datetime csv_of_datetime str_of_stamp).
Abbreviation step_store := (step to_datetime csv_of_datetime str_of_stamp).

Lemma step_append (s : Tracker * Disk) (e : Expense) :
  step_store s (OpAppend e)
  = (with_frame s.1 (ObjectFrame (as_objects (expenses_df s.1) ++ [new_row e])),
     save_data csv_of_datetime str_of_stamp
       (with_frame s.1 (ObjectFrame (as_objects (expenses_df s.1) ++ [new_row e])))).
Proof.
  unfold step, add_expense, new_row, date_text.
  destruct (e_date e); reflexivity.
Qed.

Lemma step_inv (s : Tracker * Disk) (op : Op) :
  from_form op -> store_inv s -> store_inv (step_store s op).
Proof.
  intros Hop [Hmem Hfile]. destruct op as [|e].
  - split; [|exact Hfile]. unfold stored. cbn [step fst]. unfold load_data.
    destruct (data_file s.2) as [file_rows|] eqn:E;
      cbn [expenses_df as_objects]; [|intros r []].
    intros r Hr. apply in_map_iff in Hr. destruct Hr as [r' [<- Hr']].
    split; [|exact I]. cbn [retag amount].
    apply dropna_date_source in Hr'. destruct Hr' as (_ & fr & Hfr & _ & -> & _).
    apply (Hfile file_rows fr); [reflexivity|exact Hfr].
  - rewrite step_append. cbn [from_form] in Hop.
    destruct (e_date e) as [d|txt] eqn:Ed; [|destruct Hop].
    destruct Hop as (Hv & Hy & Ha).
    assert (Hall : forall r, In r (as_objects (expenses_df s.1) ++ [new_row e]) ->
                             sound_row r).
    { intros r Hr. apply in_app_iff in Hr. destruct Hr as [Hr|[<-|[]]].
      - apply Hmem, Hr.
      - split; [exact Ha|]. cbn [new_row date resolvable]. rewrite Ed.
        cbn [date_text]. unfold parse_date.
        rewrite (parse_iso_strftime d Hv Hy). discriminate. }
    split.
    + exact Hall.
    + cbn [snd save_data data_file with_frame expenses_df to_csv].
      intros file_rows fr [= <-] Hfr. apply in_map_iff in Hfr.
      destruct Hfr as [r [<- Hr]]. cbn [retag amount]. apply Hall, Hr.
Qed.

Lemma run_inv (ops : list Op) (s : Tracker * Disk) :
  Forall from_form ops -> store_inv s -> store_inv (run_store s ops).
Proof.
  revert s. induction ops as [|op ops IH]; intros s Hops Hs; [exact Hs|].
  inversion Hops as [|? ? Hop Hops']; subst.
  cbn [run fold_left]. apply (IH _ Hops'), step_inv; assumption.
Qed.

(** C10, as amended.  [load_data] retains no record whose date cannot be
    resolved: the dates of the records it keeps of a data file are, in the
    order of the file, the dates that the parse of the column resolved, a
    cell that it did not resolve gives no record, and each record kept has
    the amount of its row of the file.  [add_expense] and [load_data] check
    no amount, and [add_expense] checks no date: they keep what they are
    given.  When every append is made as the add-expense form makes it, with
    a calendar date and an amount above 0, every record of every store state
    reached from the empty store by loads and appends has an amount above 0
    and a date that resolves. *)
Theorem reachable_records_sound (ops : list Op) :
  (forall disk file_rows,
     data_file disk = Some file_rows ->
     exists rows,
       expenses_df (load_data to_datetime disk) = DatetimeFrame rows
       /\ map date rows
          = resolved_dates (firstn (length file_rows) (to_datetime (map date file_rows)))
       /\ forall r,
            In r rows ->
            exists (i : nat) fr,
              file_rows !! i = Some fr
              /\ to_datetime (map date file_rows) !! i = Some (Some (date r))
              /\ amount r = amount fr)
  /\ (Forall from_form ops ->
      forall r, In r (stored (run_store (initial to_datetime) ops)) ->
                (0 < amount r)%Q /\ resolvable (date r)).
Proof.
  split.
  - intros disk file_rows E. unfold load_data. rewrite E. cbn [expenses_df].
    eexists. split; [reflexivity|]. split; [apply dropna_date_dates|].
    intros r Hr. apply dropna_date_In in Hr.
    destruct Hr as (i & fr & d & H1 & H2 & ->). exists i, fr. auto.
  - intros Hops. apply (run_inv ops (initial to_datetime) Hops).
    split.
    + intros r [].
    + intros file_rows fr [=].
Qed.

End StoreTheorems.

(** C10, counterexample.  From the empty store, one append stores a record
    whose amount is -5 and whose date text "soon" reads as no calendar date;
    and a record appended with amount -5 and a calendar date is retained by
    the next load. *)
Lemma reachable_records_sound_counterexample :
  (exists r,
     In r (stored (run to_datetime_infer datetime_text stamp_text
                       (initial to_datetime_infer)
                       [OpAppend (mkExpense (OtherArg "soon") "Food" (-5) "refund")]))
     /\ ~ (0 < amount r)%Q
     /\ ~ resolvable (date r))
  /\ (exists r,
        In r (stored (run to_datetime_infer datetime_text stamp_text
                          (initial to_datetime_infer)
                          [OpAppend (mkExpense (DateObj (mkDate 2024 1 5))
                                               "Food" (-5) "refund");
                           OpLoad]))
        /\ ~ (0 < amount r)%Q).
Proof.
  split.
  - eexists. split; [left; reflexivity|]. split.
    + vm_compute. discriminate.
    + intros H. apply H. reflexivity.
  - eexists. split; [left; reflexivity|]. vm_compute. discriminate.
Qed.

Lemma reachable_records_sound_witness :
  Forall from_form
         [OpAppend (mkExpense (DateObj (mkDate 2024 1 5)) "Food" 500 "lunch");
          OpLoad;
          OpAppend (mkExpense (DateObj (mkDate 2024 2 29)) "Travel" (25 # 2) "bus")]
  /\ forall r,
       In r (stored (run to_datetime_infer datetime_text stamp_text
               (initial to_datetime_infer)
               [OpAppend (mkExpense (DateObj (mkDate 2024 1 5)) "Food" 500 "lunch");
                OpLoad;
                OpAppend (mkExpense (DateObj (mkDate 2024 2 29)) "Travel" (25 # 2) "bus")])) ->
       (0 < amount r)%Q /\ resolvable (date r).
Proof.
  assert (H : Forall from_form
         [OpAppend (mkExpense (DateObj (mkDate 2024 1 5)) "Food" 500 "lunch");
          OpLoad;
          OpAppend (mkExpense (DateObj (mkDate 2024 2 29)) "Travel" (25 # 2) "bus")]).
  { repeat constructor; simpl; lia. }
  split; [exact H|].
  exact (proj2 (reachable_records_sound to_datetime_infer datetime_text stamp_text _) H).
Defined.

Lemma add_expense_reload_loses_record_witness :
  0 < len (expenses_df (load_data to_datetime_infer one_record_disk))
  /\ load_data to_datetime_infer
       (add_expense datetime_text stamp_text
                    (load_data to_datetime_infer one_record_disk)
                    (DateObj (mkDate 2024 1 20)) "Food" 300 "dinner").2
     = load_data to_datetime_infer one_record_disk.
Proof.
  assert (H : 0 < len (expenses_df (load_data to_datetime_infer one_record_disk)))
    by (vm_compute; reflexivity).
  split; [exact H|].
  exact (proj2 (proj2 (add_expense_reload_loses_record
                         one_record_disk (mkDate 2024 1 20) "Food" 300 "dinner" H))).
Defined.

(** ** The theorems at sample data *)




(** The example scenario of the specification. *)
Example example_category_totals :
  get_category_totals (loaded example_rows example_budgets) 2024 1
  = Returns [("Food"%string, 800%Q)].
Proof. vm_compute. reflexivity. Qed.

Example example_alert_january :
  check_budget_alerts (loaded example_rows example_budgets) 2024 1
  = Returns [mkAlert "Food" 700 800 100].
Proof. vm_compute. reflexivity. Qed.

Example example_alert_february :
  check_budget_alerts (loaded example_rows example_budgets) 2024 2 = Returns [].
Proof. vm_compute. reflexivity. Qed.

(** Before the first load of a data file, and between an append and the next
    load, the date column holds no timestamps and the queries on dates
    raise. *)
Example example_object_frame :
  get_monthly_summary appended_once 2024 1 = Raises AttributeError
  /\ get_monthly_summary (load_data to_datetime_infer empty_disk) 2024 1
     = Raises AttributeError.
Proof. split; reflexivity. Qed.

(** Appends to the empty store within one session do come back at the first
    load: every date cell of the file then has the same form. *)
Example example_first_session :
  stored (run to_datetime_infer datetime_text stamp_text
              (initial to_datetime_infer)
              [OpAppend (mkExpense (DateObj (mkDate 2024 1 5)) "Food" 500 "lunch");
               OpAppend (mkExpense (DateObj (mkDate 2024 1 20)) "Food" 300 "dinner");
               OpLoad])
  = [ mkRow (Stamp (mkDate 2024 1 5)) "Food" 500%Q "lunch" None None;
      mkRow (Stamp (mkDate 2024 1 20)) "Food" 300%Q "dinner" None None ].
Proof. vm_compute. reflexivity. Qed.

(** * Further properties of the tracker and its pages *)

(** ** Order of strings *)

Lemma ascii_compare_trans (c : comparison) (a1 a2 a3 : ascii) :
  Ascii.compare a1 a2 = c -> Ascii.compare a2 a3 = c -> Ascii.compare a1 a3 = c.
Proof.
  unfold Ascii.compare. intros H1 H2. destruct c.
  - apply N.compare_eq_iff in H1, H2. apply N.compare_eq_iff. congruence.
  - apply N.compare_lt_iff in H1. apply N.compare_lt_iff in H2.
    apply N.compare_lt_iff. eapply N.lt_trans; eassumption.
  - apply N.compare_gt_iff in H1. apply N.compare_gt_iff in H2.
    apply N.compare_gt_iff. eapply N.lt_trans; eassumption.
Qed.

Lemma string_compare_lt_trans (s1 s2 s3 : string) :
  String.compare s1 s2 = Lt -> String.compare s2 s3 = Lt ->
  String.compare s1 s3 = Lt.
Proof.
  revert s2 s3. induction s1 as [|a1 s1 IH]; intros [|a2 s2] [|a3 s3];
    simpl; try discriminate; try reflexivity.
  destruct (Ascii.compare a1 a2) eqn:E12; try discriminate;
    destruct (Ascii.compare a2 a3) eqn:E23; try discriminate; intros H1 H2.
  - rewrite (ascii_compare_trans Eq _ _ _ E12 E23). eapply IH; eassumption.
  - apply Ascii.compare_eq_iff in E12. subst a2. rewrite E23. reflexivity.
  - apply Ascii.compare_eq_iff in E23. subst a3. rewrite E12. reflexivity.
  - rewrite (ascii_compare_trans Lt _ _ _ E12 E23). reflexivity.
Qed.

Lemma string_leb_trans (s1 s2 s3 : string) :
  String.leb s1 s2 = true -> String.leb s2 s3 = true -> String.leb s1 s3 = true.
Proof.
  unfold String.leb. intros H1 H2.
  destruct (String.compare s1 s2) eqn:E12; try discriminate.
  - apply String.compare_eq_iff in E12. subst s2. exact H2.
  - destruct (String.compare s2 s3) eqn:E23; try discriminate.
    + apply String.compare_eq_iff in E23. subst s3. rewrite E12. reflexivity.
    + rewrite (string_compare_lt_trans _ _ _ E12 E23). reflexivity.
Qed.

Lemma string_ltb_of_leb (s1 s2 : string) :
  String.leb s1 s2 = true -> s1 <> s2 -> String.ltb s1 s2 = true.
Proof.
  unfold String.leb, String.ltb. intros H Hne.
  destruct (String.compare s1 s2) eqn:E; try discriminate; [|reflexivity].
  apply String.compare_eq_iff in E. contradiction.
Qed.

(** A duplicate-free list sorted by [<=] is sorted by [<]. *)
Lemma sorted_strict (l : list string) :
  List.NoDup l ->
  StronglySorted (fun a b => String.leb a b = true) l ->
  StronglySorted (fun a b => String.ltb a b = true) l.
Proof.
  induction l as [|a l IH]; intros Hnd Hs; [constructor|].
  inversion Hnd as [|? ? Hnotin Hnd']; subst.
  inversion Hs as [|? ? Hs' Hall]; subst.
  constructor; [apply IH; assumption|].
  rewrite List.Forall_forall in *. intros b Hb.
  apply string_ltb_of_leb; [apply Hall, Hb|]. intros ->. contradiction.
Qed.

Lemma sorted_categories (l : list string) :
  StronglySorted (fun a b => String.ltb a b = true)
                 (sort_keys String.leb (unique String.eqb l)).
Proof.
  apply sorted_strict.
  - eapply Permutation_NoDup; [symmetry; apply sort_keys_perm|].
    apply (unique_NoDup _ string_eqb_eq).
  - apply sort_keys_sorted; [apply String.leb_total | apply string_leb_trans].
Qed.

(** ** [get_categories] *)

(** X1.  On records whose categories are strings, [get_categories] lists
    exactly the categories that occur in the records, each once, in strictly
    ascending order, and nothing exactly for an empty frame; it reads no
    date, so the dtype of the date column makes no difference. *)
Theorem get_categories_spec (t : Tracker) :
  (forall c, In c (get_categories t) <-> In c (categories_of (expenses_df t)))
  /\ StronglySorted (fun a b => String.ltb a b = true) (get_categories t)
  /\ List.NoDup (get_categories t)
  /\ (get_categories t = [] <-> len (expenses_df t) = 0).
Proof.
  assert (Hlen : len (expenses_df t) = Z.of_nat (length (categories_of (expenses_df t)))).
  { destruct (expenses_df t); simpl; rewrite length_map; reflexivity. }
  assert (Hin : forall c l, In c (sort_keys String.leb (unique String.eqb l)) <-> In c l).
  { intros c l.
    rewrite (Permutation_in' (eq_refl c) (sort_keys_perm String.leb _)).
    apply (unique_In _ string_eqb_eq). }
  unfold get_categories, empty.
  destruct (len (expenses_df t) =? 0) eqn:E; cbn [negb].
  - apply Z.eqb_eq in E. split; [|split; [|split]].
    + intros c. split; [intros []|].
      destruct (categories_of (expenses_df t)); [intros []|simpl in Hlen; lia].
    + constructor.
    + constructor.
    + tauto.
  - apply Z.eqb_neq in E. split; [|split; [|split]].
    + intros c. apply Hin.
    + apply sorted_categories.
    + eapply Permutation_NoDup; [symmetry; apply sort_keys_perm|].
      apply (unique_NoDup _ string_eqb_eq).
    + split; [|intros H; contradiction].
      intros Hnil. exfalso.
      destruct (categories_of (expenses_df t)) as [|c l] eqn:Ec;
        [simpl in Hlen; lia|].
      assert (Hc : In c (sort_keys String.leb (unique String.eqb (c :: l))))
        by (apply Hin; left; reflexivity).
      rewrite Hnil in Hc. destruct Hc.
Qed.

(** ** Order of the alerts *)

Lemma omap_sorted {A B} (RA : A -> A -> Prop) (RB : B -> B -> Prop)
    (f : A -> option B) (l : list A) :
  (forall x y x' y', RA x y -> f x = Some x' -> f y = Some y' -> RB x' y') ->
  StronglySorted RA l -> StronglySorted RB (omap f l).
Proof.
  intros HR. induction l as [|a l IH]; intros Hs; [constructor|].
  inversion Hs as [|? ? Hs' Hall]; subst. rewrite omap_cons.
  destruct (f a) as [a'|] eqn:Ea; [|apply IH, Hs'].
  constructor; [apply IH, Hs'|].
  rewrite List.Forall_forall in *. intros b' Hb'.
  apply list_elem_of_In, list_elem_of_omap in Hb'.
  destruct Hb' as [b [Hb Hfb]]. apply list_elem_of_In in Hb.
  eapply HR; eauto.
Qed.

Lemma map_sorted {A B} (RA : A -> A -> Prop) (RB : B -> B -> Prop)
    (f : A -> B) (l : list A) :
  (forall x y, RA x y -> RB (f x) (f y)) ->
  StronglySorted RA l -> StronglySorted RB (map f l).
Proof.
  intros HR. induction 1 as [|a l Hs IH Hall]; [constructor|].
  simpl. constructor; [exact IH|].
  rewrite List.Forall_forall in *. intros b Hb. apply in_map_iff in Hb.
  destruct Hb as [x [<- Hx]]. apply HR, Hall, Hx.
Qed.

(** X2.  The alerts of a month come in strictly ascending order of their
    categories. *)
Theorem check_budget_alerts_sorted
    (rows : list (Row Date)) (b : gmap string Q) (y m : Z) :
  exists alerts,
    check_budget_alerts (loaded rows b) y m = Returns alerts
    /\ StronglySorted
         (fun a1 a2 => String.ltb (alert_category a1) (alert_category a2) = true)
         alerts.
Proof.
  eexists. split; [apply check_budget_alerts_eq|].
  apply (omap_sorted (fun r1 r2 => String.ltb r1.1 r2.1 = true)).
  - intros [c1 q1] [c2 q2] a1 a2 H H1 H2. apply alert_of_Some in H1, H2.
    destruct H1 as (_ & _ & ->), H2 as (_ & _ & ->). exact H.
  - unfold category_totals_of, groupby_sum.
    apply (map_sorted (fun a b => String.ltb a b = true)); [auto|].
    apply sorted_categories.
Qed.

(** ** Budgets *)

Section BudgetFacts.

Variable csv_of_datetime : Date -> string.
Variable str_of_stamp : Date -> string.

Abbreviation set_budget' := (set_budget csv_of_datetime str_of_stamp).

(** X4.  Setting the budget of one category changes the alerts of no other
    category: an alert of another category is raised after the change exactly
    when it was raised before. *)
Theorem set_budget_other_alerts
    (rows : list (Row Date)) (b : gmap string Q) (c : string) (a : Q) (y m : Z) :
  exists before after,
    check_budget_alerts (loaded rows b) y m = Returns before
    /\ check_budget_alerts (set_budget' (loaded rows b) c a).1 y m = Returns after
    /\ forall al, alert_category al <> c -> (In al after <-> In al before).
Proof.
  eexists. eexists. split; [apply check_budget_alerts_eq|].
  split; [apply (check_budget_alerts_eq rows (<[c:=a]> b))|].
  intros al Hne. rewrite !alerts_In.
  assert (E : budget_of (<[c:=a]> b) (alert_category al)
              = budget_of b (alert_category al)).
  { unfold budget_of. rewrite lookup_insert_ne by congruence. reflexivity. }
  rewrite E. reflexivity.
Qed.

End BudgetFacts.

Lemma set_budget_other_alerts_witness :
  exists before after,
    check_budget_alerts (loaded example_rows example_budgets) 2024 1 = Returns before
    /\ check_budget_alerts
         (set_budget datetime_text stamp_text (loaded example_rows example_budgets)
                     "Travel" 50).1 2024 1
       = Returns after
    /\ (In (mkAlert "Food" 700 800 100) after <-> In (mkAlert "Food" 700 800 100) before).
Proof.
  destruct (set_budget_other_alerts datetime_text stamp_text example_rows example_budgets
              "Travel" 50 2024 1) as (before & after & H1 & H2 & H3).
  exists before, after. split; [exact H1|]. split; [exact H2|].
  apply H3. simpl. discriminate.
Defined.

(** ** The alert rule *)

(** X20.  On a collection of dated records, the alerts of a month are read
    off the category totals of that month: a category is alerted exactly
    when it has a row in [get_category_totals] whose amount exceeds a
    positive budget; each alert carries that amount as [spent] and the
    budget of its category, and its overspend is positive; a category
    without an entry in the budget map is never alerted. *)
Theorem alerts_follow_category_totals
    (rows : list (Row Date)) (b : gmap string Q) (y m : Z) :
  exists totals alerts,
    get_category_totals (loaded rows b) y m = Returns totals
    /\ check_budget_alerts (loaded rows b) y m = Returns alerts
    /\ (forall c, In c (map alert_category alerts)
                  <-> exists amount,
                        In (c, amount) totals
                        /\ (0 < budget_of b c)%Q /\ (budget_of b c < amount)%Q)
    /\ (forall a, In a alerts ->
          In (alert_category a, alert_spent a) totals
          /\ alert_budget a = budget_of b (alert_category a)
          /\ (0 < alert_overspend a)%Q)
    /\ (forall c, b !! c = None -> ~ In c (map alert_category alerts)).
Proof.
  exists (category_totals_of (List.filter (in_month y m) rows)).
  exists (omap (alert_of b) (category_totals_of (List.filter (in_month y m) rows))).
  split; [apply get_category_totals_eq|]. split; [apply check_budget_alerts_eq|].
  set (totals := category_totals_of _).
  assert (Hin : forall a, In a (omap (alert_of b) totals)
            <-> exists amount,
                  In (alert_category a, amount) totals
                  /\ (0 < budget_of b (alert_category a))%Q
                  /\ (budget_of b (alert_category a) < amount)%Q
                  /\ a = mkAlert (alert_category a) (budget_of b (alert_category a))
                                 amount (amount - budget_of b (alert_category a))%Q).
  { intros a. rewrite <- list_elem_of_In, list_elem_of_omap. split.
    - intros [[c q] [Hcq Ha]]. apply list_elem_of_In in Hcq.
      apply alert_of_Some in Ha. destruct Ha as (H1 & H2 & ->).
      exists q. cbn [alert_category]. auto.
    - intros (q & Hq & H1 & H2 & Ha). exists (alert_category a, q).
      split; [apply list_elem_of_In, Hq|]. rewrite Ha at 2.
      apply alert_of_Some. auto. }
  assert (Hcat : forall c, In c (map alert_category (omap (alert_of b) totals))
            <-> exists amount,
                  In (c, amount) totals
                  /\ (0 < budget_of b c)%Q /\ (budget_of b c < amount)%Q).
  { intros c. rewrite in_map_iff. split.
    - intros [a [<- Ha]]. apply Hin in Ha.
      destruct Ha as (q & Hq & H1 & H2 & _). exists q. auto.
    - intros (q & Hq & H1 & H2).
      exists (mkAlert c (budget_of b c) q (q - budget_of b c)%Q).
      split; [reflexivity|]. apply Hin. exists q. cbn [alert_category]. auto. }
  split; [exact Hcat|]. split.
  - intros a Ha. apply Hin in Ha. destruct Ha as (q & Hq & H1 & H2 & ->).
    cbn [alert_category alert_spent alert_budget alert_overspend].
    split; [exact Hq|]. split; [reflexivity|]. qlra.
  - intros c Hc Hal. apply Hcat in Hal. destruct Hal as (q & _ & H1 & _).
    unfold budget_of in H1. rewrite Hc in H1. apply (Qlt_irrefl 0), H1.
Qed.

(** ** The records of a month *)

(** X19.  On a collection of dated records, [get_monthly_summary] returns
    the records whose date has exactly the year and the month asked for, and
    no other: a record of an adjacent month is left out however close its
    day; the records come in the order of the collection; and no record is
    in the summaries of two different months. *)
Theorem get_monthly_summary_spec
    (rows : list (Row Date)) (b : gmap string Q) (y m : Z) :
  exists monthly_data,
    get_monthly_summary (loaded rows b) y m = Returns monthly_data
    /\ (forall r, In r monthly_data
                  <-> In r rows /\ d_year (date r) = y /\ d_month (date r) = m)
    /\ sublist monthly_data rows
    /\ (forall y' m' other,
          get_monthly_summary (loaded rows b) y' m' = Returns other ->
          (y', m') <> (y, m) ->
          forall r, In r monthly_data -> ~ In r other).
Proof.
  exists (List.filter (in_month y m) rows).
  assert (Hin : forall y0 m0 r,
            In r (List.filter (in_month y0 m0) rows)
            <-> In r rows /\ d_year (date r) = y0 /\ d_month (date r) = m0).
  { intros y0 m0 r. rewrite List.filter_In. unfold in_month.
    rewrite andb_true_iff, !Z.eqb_eq. reflexivity. }
  split; [reflexivity|]. split; [apply Hin|]. split.
  - clear Hin. induction rows as [|r rows' IH]; [constructor|].
    cbn [List.filter]. destruct (in_month y m r).
    + apply sublist_skip, IH.
    + apply sublist_cons, IH.
  - intros y' m' other [= <-] Hne r Hr Hr'.
    apply Hin in Hr, Hr'. apply Hne.
    destruct Hr as (_ & <- & <-), Hr' as (_ & <- & <-). reflexivity.
Qed.

(** ** The derived columns do not show in the answers *)

Lemma filter_month_set (rows : list (Row Date)) (y m : Z) :
  List.filter (in_month y m) (map set_year_month rows)
  = map set_year_month (List.filter (in_month y m) rows).
Proof. rewrite filter_map_comm. reflexivity. Qed.

Lemma groupby_sum_map {K R} (eqb leb : K -> K -> bool) (key : R -> K)
    (val : R -> Q) (f : R -> R) (rows : list R) :
  (forall r, key (f r) = key r) -> (forall r, val (f r) = val r) ->
  groupby_sum eqb leb key val (map f rows) = groupby_sum eqb leb key val rows.
Proof.
  intros Hk Hv. unfold groupby_sum.
  rewrite map_map, (map_ext _ key Hk).
  apply map_ext. intros k. f_equal. unfold group_sum, group.
  rewrite filter_map_comm, map_map, (map_ext _ val Hv).
  do 2 f_equal. apply List.filter_ext. intros r. rewrite Hk. reflexivity.
Qed.

Lemma category_totals_set (md : list (Row Date)) :
  category_totals_of (map set_year_month md) = category_totals_of md.
Proof. apply groupby_sum_map; reflexivity. Qed.

Lemma month_buckets_set (rows : list (Row Date)) :
  month_buckets (map set_year_month rows) = month_buckets rows.
Proof. unfold month_buckets. rewrite map_map. reflexivity. Qed.

Lemma monthly_totals_set (rows : list (Row Date)) :
  monthly_totals_of (map set_year_month (map set_year_month rows))
  = monthly_totals_of (map set_year_month rows).
Proof. rewrite map_map. reflexivity. Qed.

Lemma monthly_series_set (rows : list (Row Date)) :
  monthly_series (map set_year_month rows) = monthly_series rows.
Proof.
  rewrite <- !monthly_series_eq, monthly_totals_set. reflexivity.
Qed.

Lemma answers_after_columns (rows : list (Row Date)) (b : gmap string Q) :
  let t := loaded rows b in
  let t' := loaded (map set_year_month rows) b in
  (forall y m, get_category_totals t' y m = get_category_totals t y m)
  /\ (forall y m, check_budget_alerts t' y m = check_budget_alerts t y m)
  /\ (forall now, (predict_next_month t' now).2 = (predict_next_month t now).2)
  /\ (show_ai_insights t').2 = (show_ai_insights t).2
  /\ get_categories t' = get_categories t
  /\ (forall now, (predict_next_month t' now).1 = t')
  /\ (show_ai_insights t').1 = t'.
Proof.
  cbv zeta. split; [|split; [|split; [|split; [|split; [|split]]]]].
  - intros y m. rewrite !get_category_totals_eq, filter_month_set,
      category_totals_set. reflexivity.
  - intros y m. rewrite !check_budget_alerts_eq, filter_month_set,
      category_totals_set. reflexivity.
  - intros now. rewrite !predict_next_month_eq, length_map, month_buckets_set,
      monthly_totals_set. destruct (_ <? 3)%nat; reflexivity.
  - rewrite !show_ai_insights_eq, monthly_series_set.
    destruct rows; reflexivity.
  - unfold get_categories, empty. cbn [loaded expenses_df len categories_of].
    rewrite length_map, map_map. reflexivity.
  - intros now. rewrite predict_next_month_eq, length_map, map_map.
    destruct (_ <? 3)%nat; reflexivity.
  - rewrite show_ai_insights_eq, map_map. destruct rows; reflexivity.
Qed.

(** X13.  The columns that [predict_next_month] and [show_ai_insights] write
    do not show in the answers: after any derived query, the category totals,
    the alerts, the forecast, the insights and the list of categories are
    what they were before it, and asking the same query again changes the
    tracker no further. *)
Theorem derived_columns_unobservable (q : Query) (t : Tracker) :
  (forall y m, get_category_totals (state_after q t) y m
               = get_category_totals t y m)
  /\ (forall y m, check_budget_alerts (state_after q t) y m
                  = check_budget_alerts t y m)
  /\ (forall now, (predict_next_month (state_after q t) now).2
                  = (predict_next_month t now).2)
  /\ (show_ai_insights (state_after q t)).2 = (show_ai_insights t).2
  /\ get_categories (state_after q t) = get_categories t
  /\ state_after q (state_after q t) = state_after q t.
Proof.
  assert (Hcases : state_after q t = t
            \/ exists rows b,
                 t = loaded rows b
                 /\ state_after q t = loaded (map set_year_month rows) b).
  { assert (Hform : forall t',
              (t' = t \/ exists rows, expenses_df t = DatetimeFrame rows
                 /\ t' = mkTracker (DatetimeFrame (map set_year_month rows)) (budgets t)) ->
              t' = t \/ exists rows b, t = loaded rows b
                                      /\ t' = loaded (map set_year_month rows) b).
    { intros t' [->|[rows [E ->]]]; [left; reflexivity|].
      right. exists rows, (budgets t). destruct t as [df b]. cbn in *.
      subst df. split; reflexivity. }
    destruct q; cbn [state_after]; auto.
    - apply Hform, predict_next_month_state.
    - apply Hform, show_ai_insights_state. }
  destruct Hcases as [E|(rows & b & -> & E)].
  - rewrite !E. repeat split; reflexivity.
  - rewrite E.
    destruct (answers_after_columns rows b) as (H1 & H2 & H3 & H4 & H5 & H6 & H7).
    split; [exact H1|]. split; [exact H2|]. split; [exact H3|].
    split; [exact H4|]. split; [exact H5|].
    destruct q; cbn [state_after]; auto.
Qed.

(** ** Consistency of constant spending *)

Lemma Qsum_all_equal (l : list Q) (v : Q) :
  (forall x, In x l -> (x == v)%Q) ->
  (Qsum l == inject_Z (Z.of_nat (length l)) * v)%Q.
Proof.
  induction l as [|x l IH]; intros H.
  - simpl. ring.
  - cbn [Qsum length]. rewrite inject_Z_succ, IH by (intros; apply H; right; assumption).
    rewrite (H x) by (left; reflexivity). ring.
Qed.

Lemma constant_mean_var (l : list Q) (v : Q) :
  (2 <= length l)%nat -> (forall x, In x l -> (x == v)%Q) ->
  (Qmean l == v)%Q /\ (sample_var l == 0)%Q.
Proof.
  intros Hlen H.
  assert (Hn : (0 < inject_Z (Z.of_nat (length l)))%Q).
  { change 0%Q with (inject_Z 0). rewrite <- Zlt_Qlt. lia. }
  assert (Hm : (Qmean l == v)%Q).
  { unfold Qmean. rewrite (Qsum_all_equal l v H). field.
    intros E. rewrite E in Hn. apply (Qlt_irrefl 0), Hn. }
  split; [exact Hm|]. unfold sample_var. cbv zeta.
  rewrite (Qsum_ext _ (fun _ => 0%Q)).
  - rewrite Qsum_const. field.
    assert (Hn1 : (0 < inject_Z (Z.of_nat (length l) - 1))%Q).
    { change 0%Q with (inject_Z 0). rewrite <- Zlt_Qlt. lia. }
    intros E. rewrite E in Hn1. apply (Qlt_irrefl 0), Hn1.
  - intros x Hx. rewrite Hm, (H x Hx). ring.
Qed.

(** X15.  When at least 3 months have the same positive total, the insight
    reports "consistent spending". *)
Theorem constant_spending_consistent
    (rows : list (Row Date)) (b : gmap string Q) (v : Q) :
  (3 <= length (monthly_series rows))%nat ->
  (forall x, In x (monthly_series rows) -> (x == v)%Q) ->
  (0 < v)%Q ->
  consistency_signal (show_ai_insights (loaded rows b)).2 = Some Consistent.
Proof.
  intros Hlen Hall Hv. rewrite show_ai_insights_eq.
  destruct rows as [|r rows']; [simpl in Hlen; lia|].
  set (rows := r :: rows') in *. cbn [snd consistency_signal consistency].
  rewrite consistency_insight_eq, (proj2 (Nat.leb_le _ _) Hlen).
  destruct (constant_mean_var (monthly_series rows) v) as [Hm Hvar];
    [lia | exact Hall |].
  f_equal. unfold cv_exceeds.
  rewrite (proj2 (Qeqb_neq _ 0)) by (rewrite Hm; intros E; rewrite E in Hv;
                                      apply (Qlt_irrefl 0), Hv).
  rewrite (proj2 (Qltb_lt 0 _)) by (rewrite Hm; exact Hv).
  rewrite (proj2 (Qltb_ge _ _)); [reflexivity|].
  rewrite Hvar. apply Qsquare_nonneg.
Qed.

(** ** Small expenses *)

Lemma Qsum_below (l : list Q) (c : Q) :
  l <> [] -> (forall x, In x l -> (x < c)%Q) ->
  (Qsum l < inject_Z (Z.of_nat (length l)) * c)%Q.
Proof.
  induction l as [|x l IH]; [congruence|]. intros _ H.
  cbn [Qsum length]. rewrite inject_Z_succ.
  assert (Hx : (x < c)%Q) by (apply H; left; reflexivity).
  destruct l as [|y l'].
  - cbn [Qsum]. change (inject_Z (Z.of_nat (length (@nil Q)))) with 0%Q. qlra.
  - assert (Hl : (Qsum (y :: l') < inject_Z (Z.of_nat (length (y :: l'))) * c)%Q).
    { apply IH; [discriminate|]. intros z Hz. apply H. right. exact Hz. }
    qlra.
Qed.

Lemma Qsum_filter_le {A} (f : A -> Q) (p : A -> bool) (l : list A) :
  (forall a, In a l -> (0 <= f a)%Q) ->
  (Qsum (map f (List.filter p l)) <= Qsum (map f l))%Q.
Proof.
  induction l as [|a l IH]; intros H; [apply Qle_refl|].
  assert (Ha : (0 <= f a)%Q) by (apply H; left; reflexivity).
  assert (Hl : (Qsum (map f (List.filter p l)) <= Qsum (map f l))%Q)
    by (apply IH; intros; apply H; right; assumption).
  cbn [List.filter]. destruct (p a); cbn [map Qsum]; qlra.
Qed.

(** X16.  The "small expenses add up" recommendation is shown exactly when
    more than 10 records have an amount under 100; the count it shows is the
    number of those records and the total it shows is below 100 times that
    count, and no more than the total of all records when no amount is
    negative. *)
Theorem small_expenses_spec (rows : list (Row Date)) :
  let small := List.filter (fun r => Qltb (amount r) 100) rows in
  (forall r, In r small <-> In r rows /\ (amount r < 100)%Q)
  /\ (small_expenses_signal rows = None <-> (length small <= 10)%nat)
  /\ (forall n total, small_expenses_signal rows = Some (n, total) ->
        n = length small /\ (10 < n <= length rows)%nat
        /\ (total < inject_Z (Z.of_nat n) * 100)%Q
        /\ ((forall r, In r rows -> (0 <= amount r)%Q) ->
            (total <= Qsum (map amount rows))%Q)).
Proof.
  cbv zeta. set (small := List.filter (fun r => Qltb (amount r) 100) rows).
  assert (Hsmall : forall r, In r small <-> In r rows /\ (amount r < 100)%Q).
  { intros r. unfold small. rewrite List.filter_In, Qltb_lt. reflexivity. }
  split; [exact Hsmall|]. unfold small_expenses_signal. cbv zeta. fold small.
  destruct (Nat.ltb_spec 10 (length small)) as [H|H].
  - split; [split; [discriminate | lia]|].
    intros n total [= <- <-]. split; [reflexivity|].
    split; [split; [exact H | apply List.filter_length_le]|].
    split.
    + rewrite <- (length_map amount small). apply Qsum_below.
      * destruct small; [simpl in H; lia | discriminate].
      * intros x Hx. apply in_map_iff in Hx. destruct Hx as [r [<- Hr]].
        apply Hsmall, Hr.
    + intros Hpos. apply Qsum_filter_le. exact Hpos.
  - split; [split; [intros _; exact H | reflexivity]|].
    intros n total [=].
Qed.

(** ** The further theorems at sample data *)

Lemma get_categories_spec_witness :
  In "Food"%string (get_categories appended_once)
  /\ get_categories (loaded [] example_budgets) = [].
Proof.
  split.
  - apply (proj1 (get_categories_spec appended_once)). left. reflexivity.
  - apply (proj2 (proj2 (proj2 (proj2 (get_categories_spec (loaded [] example_budgets)))))).
    reflexivity.
Defined.

Lemma constant_spending_consistent_witness :
  consistency_signal (show_ai_insights (loaded steady_rows ∅)).2 = Some Consistent.
Proof.
  apply (constant_spending_consistent steady_rows ∅ 900).
  - vm_compute. lia.
  - intros x [<-|[<-|[<-|[]]]]; vm_compute; reflexivity.
  - reflexivity.
Defined.

Lemma small_expenses_spec_witness :
  small_expenses_signal example_rows = None.
Proof.
  apply (proj1 (proj2 (small_expenses_spec example_rows))).
  vm_compute. lia.
Defined.
